(** * ChatTTS-Forge, modules/webui/webui_utils.py

    A shallow embedding of the web-UI adapter functions
    ([load_spk_info], [segments_length_limit], [synthesize_ssml],
    [tts_generate], [split_long_text]) and the properties the
    specification states about them.

    The functions are glue around external collaborators (speaker
    registry, SSML parser, synthesis engine, audio utilities).  Those are
    not part of the file; they are taken as an environment of oracles,
    and every call to one of them is recorded in a call log, so that
    "synthesis is not invoked" is a statement about the log. *)

From Stdlib Require Import ZArith NArith Ascii String Lia.
From stdpp Require Import base option list strings gmap sorting.

Local Open Scope Z_scope.

(** ** Python values *)

(** A Python [str] is a sequence of Unicode code points; [len] counts
    code points. *)
Definition codepoint := N.
Definition str := list codepoint.

Definition str_lit (s : string) : str :=
  (fun a => Ascii.N_of_ascii a) <$> String.list_ascii_of_string s.

(** [str.isspace] on a single code point, the set [str.strip] removes. *)
Definition is_space (c : codepoint) : bool :=
  ((9 <=? c) && (c <=? 13) || (28 <=? c) && (c <=? 32)
   || (c =? 133) || (c =? 160) || (c =? 5760)
   || (8192 <=? c) && (c <=? 8202)
   || (c =? 8232) || (c =? 8233) || (c =? 8239) || (c =? 8287)
   || (c =? 12288))%N.

Fixpoint lstrip (s : str) : str :=
  match s with
  | [] => []
  | c :: rest => if is_space c then lstrip rest else s
  end.

Definition rstrip (s : str) : str := reverse (lstrip (reverse s)).

(** [s.strip()] *)
Definition strip (s : str) : str := rstrip (lstrip s).

(** [len(s)] *)
Definition len {A} (l : list A) : Z := Z.of_nat (length l).

(** [s[0:stop]] for an integer [stop]: a negative [stop] counts from the
    end, and both ends are clamped to the sequence. *)
Definition slice_to {A} (l : list A) (stop : Z) : list A :=
  let stop' := if stop <? 0 then Z.max 0 (len l + stop) else Z.min stop (len l) in
  take (Z.to_nat stop') l.

(** A binary64 value is a NaN, an infinity or a finite dyadic number
    [m * 2^e].  Several pairs denote one number; the operations below
    only depend on the number denoted.  The sign of a zero is not kept:
    truth value, comparison and truncation do not see it. *)
Inductive float64 :=
| F64NaN
| F64Inf (neg : bool)
| F64Fin (m e : Z).

Definition f64_is_nan (x : float64) : bool :=
  match x with F64NaN => true | _ => false end.

(** [x < y] of IEEE 754: false as soon as one side is a NaN. *)
Definition f64_ltb (x y : float64) : bool :=
  match x, y with
  | F64NaN, _ | _, F64NaN => false
  | F64Inf nx, F64Inf ny => nx && negb ny
  | F64Inf nx, F64Fin _ _ => nx
  | F64Fin _ _, F64Inf ny => negb ny
  | F64Fin mx ex, F64Fin my ey =>
      let e := Z.min ex ey in
      mx * 2 ^ (ex - e) <? my * 2 ^ (ey - e)
  end.

Definition f64_is_zero (x : float64) : bool :=
  match x with F64Fin m _ => m =? 0 | _ => false end.

(** Conversion of an integer to binary64, round to nearest, ties to
    even: the 53 leading bits are kept.  It is only applied to integers
    below [2^64] in absolute value, far from the overflow to infinity. *)
Definition f64_of_Z (z : Z) : float64 :=
  let a := Z.abs z in
  let k := Z.log2 a - 52 in
  if k <=? 0 then F64Fin z 0
  else
    let m := Z.shiftr a k in
    let r := Z.land a (Z.ones k) in
    let half := 2 ^ (k - 1) in
    let m' := if (half <? r) || ((r =? half) && Z.odd m) then m + 1 else m in
    F64Fin (Z.sgn z * m') k.

(** Truncation toward zero of a finite value. *)
Definition f64_trunc (m e : Z) : Z :=
  if 0 <=? e then m * 2 ^ e else Z.quot m (2 ^ (- e)).

(** The values that reach these functions from UI widgets and from the
    style registry.  [PyObj] stands for any other object (a file handle,
    a speaker, an audio buffer), identified by a number. *)
Inductive pyval :=
| PyNone
| PyBool (b : bool)
| PyInt (z : Z)
| PyFloat (f : float64)
| PyStr (s : str)
| PyObj (id : N).

(** Truth value of an object, as [or], [if] and [not] see it. *)
Definition truthy (v : pyval) : bool :=
  match v with
  | PyNone => false
  | PyBool b => b
  | PyInt z => negb (z =? 0)
  | PyFloat f => negb (f64_is_zero f)
  | PyStr s => match s with [] => false | _ => true end
  | PyObj _ => true
  end.

(** [x or y] *)
Definition py_or (x y : pyval) : pyval := if truthy x then x else y.

(** [d.get(key, default)] on a dict with string keys. *)
Definition dict_get (d : gmap string pyval) (key : string) (default : pyval) : pyval :=
  match d !! key with Some v => v | None => default end.

(** ** SSML segments (modules/ssml_parser/SSMLParser.py)

    The parser yields a list whose elements are pause markers
    ([SSMLBreak]) or text runs ([SSMLSegment]); only the latter carry a
    ["text"]. *)
Inductive segment :=
| SSMLBreak (attrs : gmap string pyval)
| SSMLSegment (text : str) (attrs : gmap string pyval).

Definition isinstance_SSMLBreak (seg : segment) : bool :=
  match seg with SSMLBreak _ => true | SSMLSegment _ _ => false end.

(** [len(seg["text"])]; the loop only evaluates it on text runs. *)
Definition seg_text_len (seg : segment) : Z :=
  match seg with SSMLBreak _ => 0 | SSMLSegment text _ => len text end.

(** The [for] loop of [segments_length_limit], with its two local
    variables as accumulators; [break] returns what was collected. *)
Fixpoint segments_length_limit_loop (segments : list segment) (total_max : Z)
    (ret_segments : list segment) (total_len : Z) : list segment :=
  match segments with
  | [] => ret_segments
  | seg :: rest =>
      if isinstance_SSMLBreak seg then
        segments_length_limit_loop rest total_max (ret_segments ++ [seg]) total_len
      else
        let total_len := total_len + seg_text_len seg in
        if total_max <? total_len then ret_segments
        else segments_length_limit_loop rest total_max (ret_segments ++ [seg]) total_len
  end.

Definition segments_length_limit (segments : list segment) (total_max : Z)
    : list segment :=
  segments_length_limit_loop segments total_max [] 0.

(** Sum of [len(seg["text"])] over the text runs of a list. *)
Definition text_len_sum (segments : list segment) : Z :=
  foldr (fun seg acc => seg_text_len seg + acc) 0 segments.

(** Whether position [i] holds a text run at which the cumulative text
    length of the list exceeds [total_max]. *)
Definition overflows_at (segments : list segment) (total_max : Z) (i : nat) : bool :=
  match segments !! i with
  | Some (SSMLSegment _ _) => total_max <? text_len_sum (take (S i) segments)
  | _ => false
  end.

(** ** Exceptions, outcomes and the call log *)

(** The exceptions these functions can meet.  [BaseOnly] stands for the
    subclasses of [BaseException] that are not subclasses of [Exception]
    ([KeyboardInterrupt], [SystemExit]): [except Exception] lets them
    through, a bare [except] does not. *)
Inductive exn :=
| TypeError
| ValueError
| OverflowError
| OtherException (tag : N)
| BaseOnly (tag : N).

Definition is_Exception (e : exn) : bool :=
  match e with BaseOnly _ => false | _ => true end.

Inductive outcome (A : Type) :=
| Return (a : A)
| Raise (e : exn).
Arguments Return {A} a.
Arguments Raise {A} e.

(** The arguments [tts_generate] hands to [synthesize_audio]. *)
Record synth_call := {
  sc_text : str;
  sc_temperature : pyval;
  sc_top_P : pyval;
  sc_top_K : pyval;
  sc_spk : pyval;
  sc_infer_seed : Z;
  sc_use_decoder : pyval;
  sc_prompt1 : pyval;
  sc_prompt2 : pyval;
  sc_prefix : pyval;
  sc_batch_size : Z;
  sc_end_of_sentence : pyval;
  sc_spliter_threshold : pyval
}.

(** One entry of the call log per call to an external collaborator. *)
Inductive event :=
| EvSpeakerFromFile (file : pyval)
| EvSpeakerToJson (spk : pyval)
| EvGetAttr (obj : pyval) (name : string)
| EvFormat (v : pyval)
| EvCreateSsmlParser
| EvParserParse (parser : pyval) (ssml : str)
| EvSynthesizeSegments (batch_size : Z) (eos spliter_thr : pyval)
| EvSynthesizeSegmentsRun (synthesize : pyval) (segments : list segment)
| EvCombineAudioSegments (audio_segments : pyval)
| EvAudiosegmentToLibrosawav (combined : pyval)
| EvApplyAudioEnhance (audio_data sr enable_denoise enable_enhance : pyval)
| EvAudioToInt16 (audio_data : pyval)
| EvCalcSpkStyle (spk style : pyval)
| EvTextNormalize (text : str)
| EvSynthesizeAudio (c : synth_call)
| EvSentenceSplitter (threshold : Z)
| EvSplitterParse (spliter : pyval) (text : str).

(** Whether an entry is a call into the synthesis engine. *)
Definition is_synthesis (ev : event) : bool :=
  match ev with
  | EvSynthesizeSegments _ _ _ | EvSynthesizeSegmentsRun _ _
  | EvSynthesizeAudio _ => true
  | _ => false
  end.

(** The collaborators and the configuration, none of which is defined in
    webui_utils.py.  A collaborator either returns or raises. *)
Record externals := {
  (** [int(s)] on a [str]: [None] where Python raises [ValueError] *)
  int_of_str : str -> option Z;
  (** modules.speaker *)
  Speaker_from_file : pyval -> outcome pyval;
  Speaker_to_json : pyval -> outcome pyval;
  (** attribute access and [format] inside an f-string *)
  getattr : pyval -> string -> outcome pyval;
  format : pyval -> outcome str;
  (** modules.ssml_parser.SSMLParser *)
  create_ssml_parser : outcome pyval;
  parser_parse : pyval -> str -> outcome (list segment);
  (** modules.SynthesizeSegments *)
  SynthesizeSegments : Z -> pyval -> pyval -> outcome pyval;
  synthesize_segments : pyval -> list segment -> outcome pyval;
  combine_audio_segments : pyval -> outcome pyval;
  (** modules.utils.audio *)
  audiosegment_to_librosawav : pyval -> outcome pyval;
  audio_to_int16 : pyval -> outcome pyval;
  (** modules.Enhancer.ResembleEnhance.apply_audio_enhance *)
  _apply_audio_enhance : pyval -> pyval -> pyval -> pyval -> outcome (pyval * pyval);
  (** modules.api.utils *)
  calc_spk_style : pyval -> pyval -> outcome (gmap string pyval);
  (** modules.normalization *)
  text_normalize : str -> outcome str;
  (** modules.synthesize_audio *)
  synthesize_audio : synth_call -> outcome (pyval * pyval);
  (** modules.SentenceSplitter *)
  SentenceSplitter : Z -> outcome pyval;
  spliter_parse : pyval -> str -> outcome (list str);
  (** modules.webui.webui_config *)
  tts_max : Z;
  ssml_max : Z;
  spliter_threshold : Z
}.

(** A computation ends by returning or raising, and yields the log of
    the calls it made, in order. *)
Definition M (A : Type) : Type := (outcome A * list event)%type.

Definition result {A} (m : M A) : outcome A := fst m.
Definition calls {A} (m : M A) : list event := snd m.

#[export] Instance M_ret : MRet M := fun A a => (Return a, []).

#[export] Instance M_bind : MBind M := fun A B k m =>
  match m with
  | (Return a, log) => let '(r, log') := k a in (r, log ++ log')
  | (Raise e, log) => (Raise e, log)
  end.

(** A step that touches no collaborator. *)
Definition lift {A} (r : outcome A) : M A := (r, []).

(** A call to a collaborator: logged, then its outcome. *)
Definition call {A} (ev : event) (r : outcome A) : M A := (r, [ev]).

(** [try: body / except Exception: handler] *)
Definition try_except_Exception {A} (body handler : M A) : M A :=
  match body with
  | (Raise e, log) =>
      if is_Exception e then let '(r, log') := handler in (r, log ++ log')
      else (Raise e, log)
  | r => r
  end.

(** [try: body / except: handler] *)
Definition try_except {A} (body handler : M A) : M A :=
  match body with
  | (Raise e, log) => let '(r, log') := handler in (r, log ++ log')
  | r => r
  end.

(** A list comprehension whose element expression runs in [M]. *)
Fixpoint mapM {A B} (f : A -> M B) (l : list A) : M (list B) :=
  match l with
  | [] => mret []
  | x :: rest => y ← f x; ys ← mapM f rest; mret (y :: ys)
  end.

(** ** Builtins and numpy *)

(** [int(v)]; the objects that stand behind [PyObj] (file handles,
    speakers, buffers) define no conversion to an integer. *)
Definition py_int (ext : externals) (v : pyval) : outcome Z :=
  match v with
  | PyNone => Raise TypeError
  | PyBool b => Return (if b then 1 else 0)
  | PyInt z => Return z
  | PyFloat F64NaN => Raise ValueError
  | PyFloat (F64Inf _) => Raise OverflowError
  | PyFloat (F64Fin m e) => Return (f64_trunc m e)
  | PyStr s => match int_of_str ext s with Some z => Return z | None => Raise ValueError end
  | PyObj _ => Raise TypeError
  end.

(** The cast numpy applies to the first argument of
    [np.clip(x, lo, hi, dtype=np.float64)]: booleans, integers that fit
    a 64-bit array element and floats are cast to binary64; anything
    else has no same-kind cast to float64. *)
Definition np_as_float64 (v : pyval) : outcome float64 :=
  match v with
  | PyBool b => Return (f64_of_Z (if b then 1 else 0))
  | PyInt z =>
      if (- 2 ^ 63 <=? z) && (z <? 2 ^ 64) then Return (f64_of_Z z)
      else Raise TypeError
  | PyFloat f => Return f
  | _ => Raise TypeError
  end.

(** numpy's element-wise maximum and minimum inside [clip]: a NaN first
    argument is kept. *)
Definition f64_max (a b : float64) : float64 :=
  if f64_is_nan a then a else if f64_ltb b a then a else b.

Definition f64_min (a b : float64) : float64 :=
  if f64_is_nan a then a else if f64_ltb a b then a else b.

(** [np.clip(x, lo, hi, out=None, dtype=np.float64)] for integer bounds *)
Definition np_clip (x : pyval) (lo hi : Z) : outcome float64 :=
  match np_as_float64 x with
  | Return f => Return (f64_min (f64_max f (f64_of_Z lo)) (f64_of_Z hi))
  | Raise e => Raise e
  end.

(** ** The functions of webui_utils.py *)

(** What the guarded conversion [try: batch_size = int(batch_size)] /
    [except Exception: batch_size = fallback] leaves in [batch_size]. *)
Definition batch_size_or (ext : externals) (batch_size : pyval) (fallback : Z) : Z :=
  match py_int ext batch_size with Return z => z | Raise _ => fallback end.

(** [s == t] for a value [s] and a string literal [t] *)
Definition py_eq_str (v : pyval) (t : str) : bool :=
  match v with PyStr s => bool_decide (s = t) | _ => false end.

Definition nl : str := [10%N].

(** The outcome of reading and formatting one attribute of [infos]. *)
Definition fmt_field (ext : externals) (infos : pyval) (name : string) : outcome str :=
  match getattr ext infos name with
  | Return v => format ext v
  | Raise e => Raise e
  end.

(** [f"{v}"] for an attribute of [infos] *)
Definition format_attr (ext : externals) (infos : pyval) (name : string) : M str :=
  v ← call (EvGetAttr infos name) (getattr ext infos name);
  call (EvFormat v) (format ext v).

(** The f-string of [load_spk_info], stripped: a line per field between
    a leading newline and a trailing newline with four spaces. *)
Definition spk_info_text (name gender describe : str) : str :=
  strip (nl ++ str_lit "- name: " ++ name
         ++ nl ++ str_lit "- gender: " ++ gender
         ++ nl ++ str_lit "- describe: " ++ describe
         ++ nl ++ str_lit "    ").

Definition load_spk_info (ext : externals) (file : pyval) : M str :=
  match file with
  | PyNone => mret (str_lit "empty")
  | _ =>
      try_except
        (spk ← call (EvSpeakerFromFile file) (Speaker_from_file ext file);
         infos ← call (EvSpeakerToJson spk) (Speaker_to_json ext spk);
         name ← format_attr ext infos "name";
         gender ← format_attr ext infos "gender";
         describe ← format_attr ext infos "describe";
         mret (spk_info_text name gender describe))
        (mret (str_lit "load failed"))
  end.

(** The module's own [apply_audio_enhance] forwards to the enhancer.
    The decorators ([torch.inference_mode], [spaces.GPU]) wrap the call
    in a scope and do not change arguments or results. *)
Definition apply_audio_enhance (ext : externals)
    (audio_data sr enable_denoise enable_enhance : pyval) : M (pyval * pyval) :=
  call (EvApplyAudioEnhance audio_data sr enable_denoise enable_enhance)
       (_apply_audio_enhance ext audio_data sr enable_denoise enable_enhance).

(** Arguments of [synthesize_ssml] ([progress] is not used by the body). *)
Record ssml_args := {
  sa_ssml : str;
  sa_batch_size : pyval;
  sa_enable_enhance : pyval;
  sa_enable_denoise : pyval;
  sa_eos : pyval;
  sa_spliter_thr : pyval
}.

(** The defaults of the signature of [synthesize_ssml]. *)
Definition synthesize_ssml_defaults (ssml : str) : ssml_args := {|
  sa_ssml := ssml;
  sa_batch_size := PyInt 4;
  sa_enable_enhance := PyBool false;
  sa_enable_denoise := PyBool false;
  sa_eos := PyStr (str_lit "[uv_break]");
  sa_spliter_thr := PyInt 100
|}.

Definition synthesize_ssml (ext : externals) (a : ssml_args)
    : M (option (pyval * pyval)) :=
  batch_size ← try_except_Exception (lift (py_int ext (sa_batch_size a))) (mret 8);
  let ssml := strip (sa_ssml a) in
  if bool_decide (ssml = []) then mret None
  else
    parser ← call EvCreateSsmlParser (create_ssml_parser ext);
    segments ← call (EvParserParse parser ssml) (parser_parse ext parser ssml);
    let max_len := ssml_max ext in
    let segments := segments_length_limit segments max_len in
    if len segments =? 0 then mret None
    else
      synthesize ← call (EvSynthesizeSegments batch_size (sa_eos a) (sa_spliter_thr a))
                        (SynthesizeSegments ext batch_size (sa_eos a) (sa_spliter_thr a));
      audio_segments ← call (EvSynthesizeSegmentsRun synthesize segments)
                            (synthesize_segments ext synthesize segments);
      combined_audio ← call (EvCombineAudioSegments audio_segments)
                            (combine_audio_segments ext audio_segments);
      sr ← call (EvGetAttr combined_audio "frame_rate")
                (getattr ext combined_audio "frame_rate");
      wav ← call (EvAudiosegmentToLibrosawav combined_audio)
                 (audiosegment_to_librosawav ext combined_audio);
      '(audio_data, sr) ← apply_audio_enhance ext wav sr
                            (sa_enable_denoise a) (sa_enable_enhance a);
      audio_data ← call (EvAudioToInt16 audio_data) (audio_to_int16 ext audio_data);
      mret (Some (sr, audio_data)).

(** Arguments of [tts_generate] ([progress] is not used by the body). *)
Record tts_args := {
  ta_text : str;
  ta_temperature : pyval;
  ta_top_p : pyval;
  ta_top_k : pyval;
  ta_spk : pyval;
  ta_infer_seed : pyval;
  ta_use_decoder : pyval;
  ta_prompt1 : pyval;
  ta_prompt2 : pyval;
  ta_prefix : pyval;
  ta_style : pyval;
  ta_disable_normalize : pyval;
  ta_batch_size : pyval;
  ta_enable_enhance : pyval;
  ta_enable_denoise : pyval;
  ta_spk_file : pyval;
  ta_spliter_thr : pyval;
  ta_eos : pyval
}.

(** The call [tts_generate(text, temperature=.., infer_seed=..,
    batch_size=..)]: the other arguments take the defaults of the
    signature. *)
Definition tts_call (text : str) (temperature infer_seed batch_size : pyval)
    : tts_args := {|
  ta_text := text;
  ta_temperature := temperature;
  ta_top_p := PyFloat (F64Fin 3152519739159347 (-52));
  ta_top_k := PyInt 20;
  ta_spk := PyInt (-1);
  ta_infer_seed := infer_seed;
  ta_use_decoder := PyBool true;
  ta_prompt1 := PyStr [];
  ta_prompt2 := PyStr [];
  ta_prefix := PyStr [];
  ta_style := PyStr [];
  ta_disable_normalize := PyBool false;
  ta_batch_size := batch_size;
  ta_enable_enhance := PyBool false;
  ta_enable_denoise := PyBool false;
  ta_spk_file := PyNone;
  ta_spliter_thr := PyInt 100;
  ta_eos := PyStr (str_lit "[uv_break]")
|}.

(** The defaults of the signature of [tts_generate]; 0.3 and 0.7 are
    written as the binary64 numbers nearest to them. *)
Definition tts_generate_defaults (text : str) : tts_args :=
  tts_call text (PyFloat (F64Fin 5404319552844595 (-54))) (PyInt (-1)) (PyInt 4).

(** [if style == "*auto": style = None] *)
Definition tts_style (style : pyval) : pyval :=
  if py_eq_str style (str_lit "*auto") then PyNone else style.

(** [if isinstance(top_k, float): top_k = int(top_k)] *)
Definition tts_top_k (ext : externals) (top_k : pyval) : outcome pyval :=
  match top_k with
  | PyFloat f =>
      match py_int ext (PyFloat f) with
      | Return z => Return (PyInt z)
      | Raise e => Raise e
      end
  | v => Return v
  end.

(** [infer_seed = np.clip(infer_seed, -1, 2**32 - 1, out=None, dtype=np.float64)]
    followed by [infer_seed = int(infer_seed)] *)
Definition clip_seed (ext : externals) (infer_seed : pyval) : outcome Z :=
  match np_clip infer_seed (-1) (2 ^ 32 - 1) with
  | Return f => py_int ext (PyFloat f)
  | Raise e => Raise e
  end.

Definition tts_generate (ext : externals) (a : tts_args)
    : M (option (pyval * pyval)) :=
  batch_size ← try_except_Exception (lift (py_int ext (ta_batch_size a))) (mret 4);
  let max_len := tts_max ext in
  let text := slice_to (strip (ta_text a)) max_len in
  if bool_decide (text = []) then mret None
  else
    let style := tts_style (ta_style a) in
    top_k ← lift (tts_top_k ext (ta_top_k a));
    params ← call (EvCalcSpkStyle (ta_spk a) style) (calc_spk_style ext (ta_spk a) style);
    let spk := dict_get params "spk" (ta_spk a) in
    let infer_seed := py_or (ta_infer_seed a) (dict_get params "seed" (ta_infer_seed a)) in
    let temperature :=
      py_or (ta_temperature a) (dict_get params "temperature" (ta_temperature a)) in
    let prefix := py_or (ta_prefix a) (dict_get params "prefix" (ta_prefix a)) in
    let prompt1 := py_or (ta_prompt1 a) (dict_get params "prompt1" (PyStr [])) in
    let prompt2 := py_or (ta_prompt2 a) (dict_get params "prompt2" (PyStr [])) in
    infer_seed ← lift (clip_seed ext infer_seed);
    text ← (if negb (truthy (ta_disable_normalize a))
            then call (EvTextNormalize text) (text_normalize ext text)
            else mret text);
    spk ← (if truthy (ta_spk_file a)
           then call (EvSpeakerFromFile (ta_spk_file a))
                     (Speaker_from_file ext (ta_spk_file a))
           else mret spk);
    let c := {| sc_text := text; sc_temperature := temperature;
                sc_top_P := ta_top_p a; sc_top_K := top_k; sc_spk := spk;
                sc_infer_seed := infer_seed; sc_use_decoder := ta_use_decoder a;
                sc_prompt1 := prompt1; sc_prompt2 := prompt2; sc_prefix := prefix;
                sc_batch_size := batch_size; sc_end_of_sentence := ta_eos a;
                sc_spliter_threshold := ta_spliter_thr a |} in
    '(sample_rate, audio_data) ← call (EvSynthesizeAudio c) (synthesize_audio ext c);
    '(audio_data, sample_rate) ← apply_audio_enhance ext audio_data sample_rate
                                   (ta_enable_denoise a) (ta_enable_enhance a);
    audio_data ← call (EvAudioToInt16 audio_data) (audio_to_int16 ext audio_data);
    mret (Some (sample_rate, audio_data)).

(** The [for i, text in enumerate(sentences)] loop of [split_long_text];
    a row is the Python list [[i, text, len(text)]]. *)
Fixpoint split_long_text_loop (i : Z) (sentences : list str)
    (data : list (list pyval)) : list (list pyval) :=
  match sentences with
  | [] => data
  | text :: rest =>
      split_long_text_loop (i + 1) rest
        (data ++ [[PyInt i; PyStr text; PyInt (len text)]])
  end.

Definition split_long_text (ext : externals) (long_text_input : str)
    : M (list (list pyval)) :=
  spliter ← call (EvSentenceSplitter (spliter_threshold ext))
                 (SentenceSplitter ext (spliter_threshold ext));
  sentences ← call (EvSplitterParse spliter long_text_input)
                   (spliter_parse ext spliter long_text_input);
  sentences ← mapM (fun s => call (EvTextNormalize s) (text_normalize ext s)) sentences;
  mret (split_long_text_loop 0 sentences []).

(** Clamping an integer into the seed range [-1, 2**32 - 1]. *)
Definition seed_clamp (z : Z) : Z := Z.max (-1) (Z.min z (2 ^ 32 - 1)).

(** ** A concrete environment

    One possible world of collaborators, used to run the functions on
    concrete inputs. *)

(** The whitespace [int] accepts around a number: the ASCII characters
    tab to carriage return and the space, and the whitespace beyond
    ASCII; the separators U+001C to U+001F are not part of it. *)
Definition is_int_space (c : codepoint) : bool :=
  ((9 <=? c) && (c <=? 13) || (c =? 32) || (127 <=? c) && is_space c)%N.

Fixpoint int_lstrip (s : str) : str :=
  match s with
  | [] => []
  | c :: rest => if is_int_space c then int_lstrip rest else s
  end.

Definition int_strip (s : str) : str :=
  reverse (int_lstrip (reverse (int_lstrip s))).

(** The code points of the digit zero in the decimal digit blocks of
    Unicode 14 (category Nd), the ASCII digits first; the digits 1 to 9
    of a block follow its zero. *)
Definition decimal_zeros : list codepoint :=
  [48; 1632; 1776; 1984; 2406; 2534; 2662; 2790; 2918; 3046; 3174; 3302;
   3430; 3558; 3664; 3792; 3872; 4160; 4240; 6112; 6160; 6470; 6608; 6784;
   6800; 6992; 7088; 7232; 7248; 42528; 43216; 43264; 43472; 43504; 43600;
   44016; 65296; 66720; 68912; 69734; 69872; 69942; 70096; 70384; 70736;
   70864; 71248; 71360; 71472; 71904; 72016; 72784; 73040; 73120; 92768;
   92864; 93008; 120782; 120792; 120802; 120812; 120822; 123200; 123632;
   125264; 130032]%N.

(** The value of a decimal digit of any script. *)
Definition digit_val (c : codepoint) : option Z :=
  (fun zero => Z.of_N (c - zero)) <$>
    head (filter (fun zero => (zero <= c /\ c <= zero + 9)%N) decimal_zeros).

(** Digits with single underscores between them; [count] is the number
    of digits read so far. *)
Fixpoint parse_digits (s : str) (acc : Z) (count : Z) (after_digit : bool)
    : option (Z * Z) :=
  match s with
  | [] => if after_digit then Some (acc, count) else None
  | c :: rest =>
      if (c =? 95)%N then
        if after_digit then parse_digits rest acc count false else None
      else
        match digit_val c with
        | Some d => parse_digits rest (10 * acc + d) (count + 1) true
        | None => None
        end
  end.

(** [int(s)] on a string, in base 10: surrounding whitespace, an
    optional sign, digits; a literal of more than 4300 digits, the
    default of [sys.get_int_max_str_digits()], is refused. *)
Definition decimal_int_of_str (s : str) : option Z :=
  let '(negative, digits) :=
    match int_strip s with
    | 43%N :: rest => (false, rest)
    | 45%N :: rest => (true, rest)
    | rest => (false, rest)
    end in
  match parse_digits digits 0 0 false with
  | Some (z, count) =>
      if 4300 <? count then None else Some (if negative then - z else z)
  | None => None
  end.

Definition demo_ext (params : gmap string pyval) (segments : list segment)
    (sentences : list str) (max_len : Z) : externals := {|
  int_of_str := decimal_int_of_str;
  Speaker_from_file := fun file =>
    match file with
    | PyObj id => Return (PyObj (id + 1))
    | _ => Raise (OtherException 0)
    end;
  Speaker_to_json := fun spk => Return spk;
  getattr := fun obj name =>
    if bool_decide (name = "frame_rate") then Return (PyInt 24000)
    else Return (PyStr (str_lit name));
  format := fun v =>
    match v with
    | PyStr s => Return s
    | _ => Raise TypeError
    end;
  create_ssml_parser := Return (PyObj 10);
  parser_parse := fun _ _ => Return segments;
  SynthesizeSegments := fun _ _ _ => Return (PyObj 11);
  synthesize_segments := fun _ _ => Return (PyObj 12);
  combine_audio_segments := fun _ => Return (PyObj 13);
  audiosegment_to_librosawav := fun _ => Return (PyObj 14);
  audio_to_int16 := fun _ => Return (PyObj 15);
  _apply_audio_enhance := fun audio_data sr _ _ => Return (audio_data, sr);
  calc_spk_style := fun _ _ => Return params;
  text_normalize := fun s => Return s;
  synthesize_audio := fun _ => Return (PyInt 24000, PyObj 16);
  SentenceSplitter := fun _ => Return (PyObj 17);
  spliter_parse := fun _ _ => Return sentences;
  tts_max := max_len;
  ssml_max := max_len;
  spliter_threshold := 100
|}.

(** Worlds and calls used as concrete inputs. *)
Definition ext_plain : externals := demo_ext ∅ [] [] 1000.

Definition ext_short : externals :=
  demo_ext ∅ [SSMLSegment (str_lit "hello") ∅] [] 3.

Definition ext_one_segment : externals :=
  demo_ext ∅ [SSMLSegment (str_lit "hello") ∅] [] 1000.

Definition ext_styled : externals :=
  demo_ext {["seed" := PyInt 42; "temperature" := PyInt 1]} [] [] 1000.

Definition tts_big_seed : tts_args :=
  tts_call (str_lit "hello") (PyInt 1) (PyInt 5000000000) (PyInt 4).

Definition tts_zero_seed : tts_args :=
  tts_call (str_lit "hello") (PyInt 0) (PyInt 0) (PyInt 4).

Definition tts_padded : tts_args := tts_generate_defaults (str_lit "  hello  ").

Definition ssml_hello : ssml_args := synthesize_ssml_defaults (str_lit "<speak>hello</speak>").

Definition ssml_no_batch_size : ssml_args := {|
  sa_ssml := str_lit "<speak>hello</speak>";
  sa_batch_size := PyNone;
  sa_enable_enhance := PyBool false;
  sa_enable_denoise := PyBool false;
  sa_eos := PyStr (str_lit "[uv_break]");
  sa_spliter_thr := PyInt 100
|}.

Definition tts_no_batch_size : tts_args :=
  tts_call (str_lit "hello") (PyInt 1) (PyInt (-1)) PyNone.

(** ** What the length limit keeps, without the accumulator *)

(** The elements the loop of [segments_length_limit] still appends when
    it is at [segments] with [total_len] characters counted so far. *)
Fixpoint kept_segments (segments : list segment) (total_max total_len : Z)
    : list segment :=
  match segments with
  | [] => []
  | seg :: rest =>
      if isinstance_SSMLBreak seg then seg :: kept_segments rest total_max total_len
      else if total_max <? total_len + seg_text_len seg then []
      else seg :: kept_segments rest total_max (total_len + seg_text_len seg)
  end.

(** The pause markers in front of the first text run. *)
Fixpoint leading_breaks (segments : list segment) : list segment :=
  match segments with
  | seg :: rest => if isinstance_SSMLBreak seg then seg :: leading_breaks rest else []
  | [] => []
  end.

(** ** Speaker names ([get_speakers], [get_speaker_names]) *)

(** [s < t] on strings: lexicographic on the code points, a proper
    prefix before what extends it. *)
Fixpoint str_ltb (s t : str) : bool :=
  match s, t with
  | _, [] => false
  | [], _ :: _ => true
  | a :: s', b :: t' => (a <? b)%N || ((a =? b)%N && str_ltb s' t')
  end.

(** [x.startswith("*")] *)
Definition startswith_star (x : str) : bool :=
  match x with
  | c :: _ => (c =? 42)%N
  | [] => false
  end.

(** The sort key [x.startswith("*") and "-1" or x]: ["-1"] is a
    non-empty string, so the [and] yields it for a starred name and the
    [or] keeps it; otherwise the [and] yields [False] and the [or]
    yields [x]. *)
Definition sort_key (x : str) : str :=
  if startswith_star x then str_lit "-1" else x.

(** [l.sort(key=key)] sorts by [<] on the keys and is stable; a list has
    one stable ascending arrangement, computed here by insertion: an
    element goes in front of the first one whose key is not smaller. *)
Fixpoint insert_by {A} (key : A -> str) (x : A) (l : list A) : list A :=
  match l with
  | [] => [x]
  | y :: rest =>
      if str_ltb (key y) (key x) then y :: insert_by key x rest
      else x :: y :: rest
  end.

Definition sort_by {A} (key : A -> str) (l : list A) : list A :=
  foldr (insert_by key) [] l.

(** [x] may stand before [y] in a list sorted by [key]: the key of [y]
    is not smaller. *)
Definition key_le {A} (key : A -> str) (x y : A) : Prop :=
  str_ltb (key y) (key x) = false.

Section SpeakerNames.

(** The [Speaker] class and the speaker registry are defined in
    modules/speaker.py; of a speaker this file reads the attributes
    [name] and [gender], two strings. *)
Context {speaker : Type} (spk_name spk_gender : speaker -> str).

(** [speaker_mgr.list_speakers()] either returns the speakers or raises. *)
Context (list_speakers : outcome (list speaker)).

Definition get_speakers : outcome (list speaker) := list_speakers.

Definition get_speaker_show_name (spk : speaker) : str :=
  if bool_decide (spk_gender spk = str_lit "*") || bool_decide (spk_gender spk = [])
  then spk_name spk
  else spk_gender spk ++ str_lit " : " ++ spk_name spk.

Definition get_speaker_names : outcome (list speaker * list str) :=
  match get_speakers with
  | Return speakers =>
      let speaker_names := get_speaker_show_name <$> speakers in
      Return (speakers, sort_by sort_key speaker_names)
  | Raise e => Raise e
  end.

End SpeakerNames.

(** ** More concrete worlds *)

(** A world that differs from [ext] in the SSML parser and the
    normalizer. *)
Definition with_parser_and_normalizer (ext : externals)
    (parse : pyval -> str -> outcome (list segment))
    (normalize : str -> outcome str) : externals := {|
  int_of_str := int_of_str ext;
  Speaker_from_file := Speaker_from_file ext;
  Speaker_to_json := Speaker_to_json ext;
  getattr := getattr ext;
  format := format ext;
  create_ssml_parser := create_ssml_parser ext;
  parser_parse := parse;
  SynthesizeSegments := SynthesizeSegments ext;
  synthesize_segments := synthesize_segments ext;
  combine_audio_segments := combine_audio_segments ext;
  audiosegment_to_librosawav := audiosegment_to_librosawav ext;
  audio_to_int16 := audio_to_int16 ext;
  _apply_audio_enhance := _apply_audio_enhance ext;
  calc_spk_style := calc_spk_style ext;
  text_normalize := normalize;
  synthesize_audio := synthesize_audio ext;
  SentenceSplitter := SentenceSplitter ext;
  spliter_parse := spliter_parse ext;
  tts_max := tts_max ext;
  ssml_max := ssml_max ext;
  spliter_threshold := spliter_threshold ext
|}.

(** The parser raises. *)
Definition ext_parser_raises : externals :=
  with_parser_and_normalizer ext_plain
    (fun _ _ => Raise (OtherException 7)) (text_normalize ext_plain).

(** The normalizer raises on the sentence ["bad"]. *)
Definition ext_normalizer_raises : externals :=
  with_parser_and_normalizer
    (demo_ext ∅ [] [str_lit "ok"; str_lit "bad"; str_lit "late"] 1000)
    (parser_parse ext_plain)
    (fun s => if bool_decide (s = str_lit "bad") then Raise ValueError else Return s).

(** A style that names a speaker. *)
Definition ext_style_speaker : externals :=
  demo_ext {["spk" := PyObj 77]} [] [] 1000.

(** A call with a float [top_k] (20.5) and [batch_size] (4.5), the style
    ["*auto"], normalization off and a speaker file. *)
Definition tts_custom : tts_args := {|
  ta_text := str_lit "hello";
  ta_temperature := PyInt 1;
  ta_top_p := PyFloat (F64Fin 3152519739159347 (-52));
  ta_top_k := PyFloat (F64Fin 41 (-1));
  ta_spk := PyInt 3;
  ta_infer_seed := PyInt 7;
  ta_use_decoder := PyBool true;
  ta_prompt1 := PyStr [];
  ta_prompt2 := PyStr [];
  ta_prefix := PyStr [];
  ta_style := PyStr (str_lit "*auto");
  ta_disable_normalize := PyBool true;
  ta_batch_size := PyFloat (F64Fin 9 (-1));
  ta_enable_enhance := PyBool false;
  ta_enable_denoise := PyBool false;
  ta_spk_file := PyObj 5;
  ta_spliter_thr := PyInt 100;
  ta_eos := PyStr (str_lit "[uv_break]")
|}.

(** The steps of [tts_generate] around the clipping of the seed return:
    the text is not blank, [top_k] converts, [calc_spk_style] returns,
    and so do the normalizer and [Speaker.from_file] where they are
    called. *)
Definition tts_steps_return (ext : externals) (a : tts_args) : Prop :=
  slice_to (strip (ta_text a)) (tts_max ext) <> []
  /\ (exists top_k, tts_top_k ext (ta_top_k a) = Return top_k)
  /\ (exists params,
        calc_spk_style ext (ta_spk a) (tts_style (ta_style a)) = Return params)
  /\ (truthy (ta_disable_normalize a) = false ->
      exists t, text_normalize ext (slice_to (strip (ta_text a)) (tts_max ext))
                = Return t)
  /\ (truthy (ta_spk_file a) = true ->
      exists spk, Speaker_from_file ext (ta_spk_file a) = Return spk).

(** A call whose seed is [2**64]. *)
Definition tts_huge_seed : tts_args :=
  tts_call (str_lit "hello") (PyInt 1) (PyInt (2 ^ 64)) (PyInt 4).

(** A call whose seed is a NaN. *)
Definition tts_nan_seed : tts_args :=
  tts_call (str_lit "hello") (PyInt 1) (PyFloat F64NaN) (PyInt 4).

(** An SSML call with the batch size 4.5. *)
Definition ssml_float_batch : ssml_args := {|
  sa_ssml := str_lit "<speak>hello</speak>";
  sa_batch_size := PyFloat (F64Fin 9 (-1));
  sa_enable_enhance := PyBool false;
  sa_enable_denoise := PyBool false;
  sa_eos := PyStr (str_lit "[uv_break]");
  sa_spliter_thr := PyInt 100
|}.

(** Three speakers as (name, gender) pairs, in registry order. *)
Definition demo_speakers : list (str * str) :=
  [(str_lit "zoe", str_lit "female"); (str_lit "*random", str_lit "*");
   (str_lit "bob", []); (str_lit "*seed", [])].

(** ** Properties of [segments_length_limit] *)

Section LengthLimit.

Variable total_max : Z.

Lemma text_len_sum_app (l1 l2 : list segment) :
  text_len_sum (l1 ++ l2) = text_len_sum l1 + text_len_sum l2.
Proof.
  induction l1 as [|seg l1 IH]; simpl; [done|].
  rewrite IH. lia.
Qed.

Lemma text_len_sum_nonneg (l : list segment) : 0 <= text_len_sum l.
Proof.
  induction l as [|[attrs|text attrs] l IH]; simpl; unfold len; lia.
Qed.

(** The loop keeps the invariant "[total_len] is the text length of
    [ret_segments], and it is within the limit". *)
Lemma segments_length_limit_loop_sum (segments : list segment) :
  forall ret_segments total_len,
    total_len = text_len_sum ret_segments ->
    total_len <= total_max ->
    text_len_sum (segments_length_limit_loop segments total_max ret_segments total_len)
      <= total_max.
Proof.
  induction segments as [|seg rest IH]; intros ret total Hsum Hle; simpl.
  - lia.
  - destruct seg as [attrs|text attrs]; simpl.
    + apply IH; [|done].
      rewrite text_len_sum_app; simpl. lia.
    + destruct (Z.ltb_spec total_max (total + len text)) as [Hover|Hfit].
      * lia.
      * apply IH; [|done].
        rewrite text_len_sum_app; simpl. lia.
Qed.

(** The loop returns what it had collected followed by a prefix of what
    it was given, cut at the first text run that overflows. *)
Lemma segments_length_limit_loop_prefix (segments : list segment) :
  forall ret_segments total_len,
  exists k : nat,
    (k <= length segments)%nat
    /\ segments_length_limit_loop segments total_max ret_segments total_len
       = ret_segments ++ take k segments
    /\ (forall j, (j < k)%nat -> overflows_at segments (total_max - total_len) j = false)
    /\ ((k < length segments)%nat ->
        overflows_at segments (total_max - total_len) k = true).
Proof.
  unfold overflows_at.
  induction segments as [|seg rest IH]; intros ret total; simpl.
  - exists 0%nat. rewrite app_nil_r. repeat split; try done; simpl; lia.
  - destruct seg as [attrs|text attrs]; simpl.
    + destruct (IH (ret ++ [SSMLBreak attrs]) total) as (k & Hk & Heq & Hbefore & Hat).
      exists (S k). split; [lia|]. split; [by rewrite Heq, <- app_assoc|].
      split.
      * intros [|j] Hj; [done|]. simpl. apply (Hbefore j). lia.
      * intros Hlt. simpl. apply Hat. lia.
    + destruct (Z.ltb_spec total_max (total + len text)) as [Hover|Hfit].
      * exists 0%nat. split; [lia|]. split; [by rewrite app_nil_r|].
        split; [lia|]. intros _. simpl. apply Z.ltb_lt. lia.
      * destruct (IH (ret ++ [SSMLSegment text attrs]) (total + len text))
          as (k & Hk & Heq & Hbefore & Hat).
        exists (S k). split; [lia|]. split; [by rewrite Heq, <- app_assoc|].
        split.
        -- intros [|j] Hj; simpl.
           ++ apply Z.ltb_ge. lia.
           ++ specialize (Hbefore j ltac:(lia)).
              destruct (rest !! j) as [[?|? ?]|]; try done.
              apply Z.ltb_ge. apply Z.ltb_ge in Hbefore. lia.
        -- intros Hlt. specialize (Hat ltac:(lia)). simpl.
           destruct (rest !! k) as [[?|? ?]|]; try done.
           apply Z.ltb_lt. apply Z.ltb_lt in Hat. lia.
Qed.

(** C1: for every segment list and every non-negative [total_max], the
    texts of the text runs in the list [segments_length_limit] returns
    have a total length of at most [total_max]. *)
Theorem segments_length_limit_sum (segments : list segment) :
  0 <= total_max ->
  text_len_sum (segments_length_limit segments total_max) <= total_max.
Proof.
  intros Hmax. unfold segments_length_limit.
  by apply segments_length_limit_loop_sum.
Qed.

(** C8: the list [segments_length_limit] returns is the first [k]
    elements of its input, unchanged and in order, where [k] is the
    position of the first text run at which the cumulative text length
    (pause markers count for nothing) exceeds [total_max], or the length
    of the input when there is none; every element from that position on
    is dropped, pause markers included. *)
Theorem segments_length_limit_prefix (segments : list segment) :
  exists k : nat,
    (k <= length segments)%nat
    /\ segments_length_limit segments total_max = take k segments
    /\ (forall j, (j < k)%nat -> overflows_at segments total_max j = false)
    /\ ((k < length segments)%nat -> overflows_at segments total_max k = true).
Proof.
  destruct (segments_length_limit_loop_prefix segments [] 0)
    as (k & Hk & Heq & Hbefore & Hat).
  rewrite Z.sub_0_r in Hbefore, Hat.
  exists k. unfold segments_length_limit. rewrite Heq. done.
Qed.

End LengthLimit.

Lemma segments_length_limit_sum_witness :
  0 <= 5 /\
  text_len_sum
    (segments_length_limit
       [SSMLSegment (str_lit "abc") ∅; SSMLBreak ∅;
        SSMLSegment (str_lit "de") ∅; SSMLSegment (str_lit "f") ∅] 5) <= 5.
Proof.
  split; [lia|]. apply segments_length_limit_sum. lia.
Defined.

(** The run that overflows is dropped with everything behind it, even a
    later run that would have fitted and a later pause. *)
Example segments_length_limit_drops_tail :
  segments_length_limit
    [SSMLSegment (str_lit "abc") ∅; SSMLBreak ∅; SSMLSegment (str_lit "de") ∅;
     SSMLSegment (str_lit "f") ∅; SSMLBreak ∅] 4
  = [SSMLSegment (str_lit "abc") ∅; SSMLBreak ∅].
Proof. reflexivity. Qed.

(** With a negative limit the leading pauses are all that is kept. *)
Example segments_length_limit_negative :
  segments_length_limit [SSMLBreak ∅; SSMLSegment [] ∅; SSMLBreak ∅] (-1)
  = [SSMLBreak ∅].
Proof. reflexivity. Qed.

(** ** Running the computations *)

Ltac unfold_M :=
  unfold result, calls, mbind, M_bind, mret, M_ret, try_except,
    apply_audio_enhance, format_attr, lift, call in *.

(** Case analysis on the innermost scrutinee of a hypothesis. *)
Ltac split_match_hyp H :=
  repeat match type of H with
         | context [match ?x with _ => _ end] =>
             lazymatch x with
             | context [match _ with _ => _ end] => fail
             | _ => destruct x eqn:?; simpl in H
             end
         end.

(** Membership of an entry in a log that is known entry by entry. *)
Ltac log_inv H :=
  repeat (apply elem_of_cons in H as [H|H]; [try discriminate H|]);
  try (apply elem_of_nil in H; destruct H).

Section Runs.

Context (ext : externals).

Lemma py_int_raises_Exception (v : pyval) (e : exn) :
  py_int ext v = Raise e -> is_Exception e = true.
Proof.
  destruct v as [| | |[| |]|s|]; simpl;
    try destruct (int_of_str ext s); intros [= <-]; reflexivity.
Qed.

(** The guarded conversion of [batch_size] always returns, without a
    call: the converted value, or the fallback when [int] raises. *)
Lemma try_int_fallback (v : pyval) (fallback : Z) :
  try_except_Exception (lift (py_int ext v)) (mret fallback)
  = (Return (batch_size_or ext v fallback), []).
Proof.
  unfold try_except_Exception, lift, batch_size_or.
  destruct (py_int ext v) as [z|e] eqn:Hint; [done|].
  by rewrite (py_int_raises_Exception _ _ Hint).
Qed.

(** The body of [tts_generate] once the batch size is settled. *)
Lemma tts_generate_unfold (a : tts_args) :
  tts_generate ext a
  = let batch_size := batch_size_or ext (ta_batch_size a) 4 in
    let text := slice_to (strip (ta_text a)) (tts_max ext) in
    if bool_decide (text = []) then (Return None, [])
    else
      let style := tts_style (ta_style a) in
      top_k ← lift (tts_top_k ext (ta_top_k a));
      params ← call (EvCalcSpkStyle (ta_spk a) style) (calc_spk_style ext (ta_spk a) style);
      infer_seed ← lift (clip_seed ext (py_or (ta_infer_seed a)
                                          (dict_get params "seed" (ta_infer_seed a))));
      text ← (if negb (truthy (ta_disable_normalize a))
              then call (EvTextNormalize text) (text_normalize ext text)
              else mret text);
      spk ← (if truthy (ta_spk_file a)
             then call (EvSpeakerFromFile (ta_spk_file a))
                       (Speaker_from_file ext (ta_spk_file a))
             else mret (dict_get params "spk" (ta_spk a)));
      let c := {| sc_text := text;
                  sc_temperature := py_or (ta_temperature a)
                    (dict_get params "temperature" (ta_temperature a));
                  sc_top_P := ta_top_p a; sc_top_K := top_k; sc_spk := spk;
                  sc_infer_seed := infer_seed; sc_use_decoder := ta_use_decoder a;
                  sc_prompt1 := py_or (ta_prompt1 a) (dict_get params "prompt1" (PyStr []));
                  sc_prompt2 := py_or (ta_prompt2 a) (dict_get params "prompt2" (PyStr []));
                  sc_prefix := py_or (ta_prefix a) (dict_get params "prefix" (ta_prefix a));
                  sc_batch_size := batch_size; sc_end_of_sentence := ta_eos a;
                  sc_spliter_threshold := ta_spliter_thr a |} in
      '(sample_rate, audio_data) ← call (EvSynthesizeAudio c) (synthesize_audio ext c);
      '(audio_data, sample_rate) ← apply_audio_enhance ext audio_data sample_rate
                                     (ta_enable_denoise a) (ta_enable_enhance a);
      audio_data ← call (EvAudioToInt16 audio_data) (audio_to_int16 ext audio_data);
      mret (Some (sample_rate, audio_data)).
Proof.
  unfold tts_generate. unfold mbind at 1. unfold M_bind at 1.
  rewrite try_int_fallback. simpl.
  destruct (bool_decide _); [done|].
  match goal with |- (let '(r, log') := ?m in _) = ?m' => change m with m'; by destruct m' end.
Qed.

Lemma tts_generate_synthesize_audio_inv (a : tts_args) (c : synth_call) :
  EvSynthesizeAudio c ∈ calls (tts_generate ext a) ->
  exists params,
    calc_spk_style ext (ta_spk a) (tts_style (ta_style a)) = Return params
    /\ clip_seed ext (py_or (ta_infer_seed a) (dict_get params "seed" (ta_infer_seed a)))
       = Return (sc_infer_seed c)
    /\ sc_temperature c
       = py_or (ta_temperature a) (dict_get params "temperature" (ta_temperature a))
    /\ sc_prefix c = py_or (ta_prefix a) (dict_get params "prefix" (ta_prefix a))
    /\ sc_prompt1 c = py_or (ta_prompt1 a) (dict_get params "prompt1" (PyStr []))
    /\ sc_prompt2 c = py_or (ta_prompt2 a) (dict_get params "prompt2" (PyStr []))
    /\ sc_batch_size c = batch_size_or ext (ta_batch_size a) 4
    /\ (if truthy (ta_disable_normalize a)
        then sc_text c = slice_to (strip (ta_text a)) (tts_max ext)
        else text_normalize ext (slice_to (strip (ta_text a)) (tts_max ext))
             = Return (sc_text c)).
Proof.
  rewrite tts_generate_unfold.
  unfold_M. simpl. intros H.
  split_match_hyp H; log_inv H.
  all: injection H as ->; simpl; eexists; repeat split; try done.
  all: destruct (truthy (ta_disable_normalize a)); simpl in *; congruence.
Qed.

(** The only text handed to the normalizer is the truncated input. *)
Lemma tts_generate_text_normalize_inv (a : tts_args) (t : str) :
  EvTextNormalize t ∈ calls (tts_generate ext a) ->
  t = slice_to (strip (ta_text a)) (tts_max ext).
Proof.
  rewrite tts_generate_unfold.
  unfold_M. simpl. intros H.
  split_match_hyp H; log_inv H; by injection H as ->.
Qed.

(** A tuple returned by [tts_generate] is made of the enhancer's sample
    rate and the converted buffer of the synthesized audio. *)
Lemma tts_generate_result_inv (a : tts_args) (sr audio : pyval) :
  result (tts_generate ext a) = Return (Some (sr, audio)) ->
  exists c rate raw enhanced,
    EvSynthesizeAudio c ∈ calls (tts_generate ext a)
    /\ synthesize_audio ext c = Return (rate, raw)
    /\ _apply_audio_enhance ext raw rate (ta_enable_denoise a) (ta_enable_enhance a)
       = Return (enhanced, sr)
    /\ audio_to_int16 ext enhanced = Return audio.
Proof.
  rewrite tts_generate_unfold.
  unfold_M. simpl. intros H.
  split_match_hyp H; try discriminate H.
  all: injection H as -> ->; simpl.
  all: do 4 eexists; (split; [|split; [eassumption|split; [eassumption|eassumption]]]).
  all: set_solver.
Qed.

(** The body of [synthesize_ssml] once the batch size is settled. *)
Lemma synthesize_ssml_unfold (a : ssml_args) :
  synthesize_ssml ext a
  = let batch_size := batch_size_or ext (sa_batch_size a) 8 in
    let ssml := strip (sa_ssml a) in
    if bool_decide (ssml = []) then (Return None, [])
    else
      parser ← call EvCreateSsmlParser (create_ssml_parser ext);
      segments ← call (EvParserParse parser ssml) (parser_parse ext parser ssml);
      let segments := segments_length_limit segments (ssml_max ext) in
      if len segments =? 0 then mret None
      else
        synthesize ← call (EvSynthesizeSegments batch_size (sa_eos a) (sa_spliter_thr a))
                          (SynthesizeSegments ext batch_size (sa_eos a) (sa_spliter_thr a));
        audio_segments ← call (EvSynthesizeSegmentsRun synthesize segments)
                              (synthesize_segments ext synthesize segments);
        combined_audio ← call (EvCombineAudioSegments audio_segments)
                              (combine_audio_segments ext audio_segments);
        sr ← call (EvGetAttr combined_audio "frame_rate")
                  (getattr ext combined_audio "frame_rate");
        wav ← call (EvAudiosegmentToLibrosawav combined_audio)
                   (audiosegment_to_librosawav ext combined_audio);
        '(audio_data, sr) ← apply_audio_enhance ext wav sr
                              (sa_enable_denoise a) (sa_enable_enhance a);
        audio_data ← call (EvAudioToInt16 audio_data) (audio_to_int16 ext audio_data);
        mret (Some (sr, audio_data)).
Proof.
  unfold synthesize_ssml. unfold mbind at 1. unfold M_bind at 1.
  rewrite try_int_fallback. simpl.
  destruct (bool_decide _); [done|].
  match goal with |- (let '(r, log') := ?m in _) = ?m' => change m with m'; by destruct m' end.
Qed.

Lemma synthesize_ssml_result_inv (a : ssml_args) (sr audio : pyval) :
  result (synthesize_ssml ext a) = Return (Some (sr, audio)) ->
  exists wav rate enhanced,
    _apply_audio_enhance ext wav rate (sa_enable_denoise a) (sa_enable_enhance a)
    = Return (enhanced, sr)
    /\ audio_to_int16 ext enhanced = Return audio.
Proof.
  rewrite synthesize_ssml_unfold.
  unfold_M. simpl. intros H.
  split_match_hyp H; try discriminate H.
  injection H as -> ->. eauto.
Qed.

(** The batch size handed to [SynthesizeSegments]. *)
Lemma synthesize_ssml_batch_size_inv (a : ssml_args)
    (batch_size : Z) (eos spliter_thr : pyval) :
  EvSynthesizeSegments batch_size eos spliter_thr ∈ calls (synthesize_ssml ext a) ->
  batch_size = batch_size_or ext (sa_batch_size a) 8.
Proof.
  rewrite synthesize_ssml_unfold.
  unfold_M. simpl. intros H.
  split_match_hyp H; log_inv H; by injection H as -> _ _.
Qed.

End Runs.

(** ** [str.strip] and slicing *)

(** [lstrip] removes a run of whitespace and stops at the first other
    character. *)
Lemma lstrip_spec (s : str) :
  exists pre,
    s = pre ++ lstrip s
    /\ Forall (fun c => is_space c = true) pre
    /\ (forall c, head (lstrip s) = Some c -> is_space c = false).
Proof.
  induction s as [|c rest IH]; simpl.
  - exists []. by repeat split.
  - destruct (is_space c) eqn:Hc.
    + destruct IH as (pre & Heq & Hpre & Hhead).
      exists (c :: pre). split; [by rewrite <- app_comm_cons, <- Heq|].
      split; [by constructor|done].
    + exists []. split; [done|]. split; [constructor|].
      simpl. by intros ? [= <-].
Qed.

Lemma rstrip_spec (s : str) :
  exists post,
    s = rstrip s ++ post
    /\ Forall (fun c => is_space c = true) post
    /\ (forall c, last (rstrip s) = Some c -> is_space c = false).
Proof.
  unfold rstrip.
  destruct (lstrip_spec (reverse s)) as (pre & Heq & Hpre & Hhead).
  exists (reverse pre). split; [|split].
  - rewrite <- reverse_app, <- Heq. by rewrite reverse_involutive.
  - by apply Forall_reverse.
  - intros c. rewrite last_reverse. apply Hhead.
Qed.

(** [strip] removes the whitespace around a string and nothing else:
    what is left neither starts nor ends with whitespace. *)
Lemma strip_spec (s : str) :
  exists pre post,
    s = pre ++ strip s ++ post
    /\ Forall (fun c => is_space c = true) pre
    /\ Forall (fun c => is_space c = true) post
    /\ (forall c, head (strip s) = Some c -> is_space c = false)
    /\ (forall c, last (strip s) = Some c -> is_space c = false).
Proof.
  unfold strip.
  destruct (lstrip_spec s) as (pre & Hs & Hpre & Hhead).
  destruct (rstrip_spec (lstrip s)) as (post & Ht & Hpost & Hlast).
  exists pre, post. split; [by rewrite <- Ht|].
  split; [done|]. split; [done|]. split; [|done].
  intros c Hc. apply Hhead. rewrite Ht.
  destruct (rstrip (lstrip s)); [done|]. exact Hc.
Qed.

(** ** Properties of the text and SSML entry points *)

Lemma slice_to_len {A} (l : list A) (stop : Z) :
  0 <= stop -> len (slice_to l stop) <= stop.
Proof.
  intros Hstop. unfold slice_to, len.
  destruct (Z.ltb_spec stop 0) as [?|_]; [lia|].
  rewrite length_take. lia.
Qed.

Lemma slice_to_prefix {A} (l : list A) (stop : Z) : slice_to l stop `prefix_of` l.
Proof. apply prefix_take. Qed.

(** ** Clipping the seed *)

Section SeedClip.

Context (ext : externals).

Lemma quot_le_bound (m b P : Z) : 0 < P -> m <= b * P -> Z.quot m P <= b.
Proof.
  intros HP Hle. rewrite <- (Z.quot_mul b P) by lia.
  apply Z.quot_le_mono; lia.
Qed.

Lemma quot_ge_bound (m b P : Z) : 0 < P -> b * P <= m -> b <= Z.quot m P.
Proof.
  intros HP Hle. rewrite <- (Z.quot_mul b P) at 1 by lia.
  apply Z.quot_le_mono; lia.
Qed.

Lemma f64_max_lo (m e : Z) :
  f64_max (F64Fin m e) (F64Fin (-1) 0)
  = if 0 <=? e
    then (if -1 <? m * 2 ^ e then F64Fin m e else F64Fin (-1) 0)
    else (if - 2 ^ (- e) <? m then F64Fin m e else F64Fin (-1) 0).
Proof.
  unfold f64_max, f64_ltb. simpl f64_is_nan. cbv iota.
  destruct (Z.leb_spec 0 e) as [He|He].
  - rewrite Z.min_l by lia.
    rewrite Z.sub_diag, Z.sub_0_r, Z.pow_0_r, Z.mul_1_r. done.
  - rewrite Z.min_r by lia.
    rewrite Z.sub_diag, Z.sub_0_l, Z.pow_0_r, Z.mul_1_r.
    by replace (-1 * 2 ^ (- e)) with (- 2 ^ (- e)) by lia.
Qed.

Lemma f64_min_hi (m e : Z) :
  f64_min (F64Fin m e) (F64Fin 4294967295 0)
  = if 0 <=? e
    then (if m * 2 ^ e <? 4294967295 then F64Fin m e else F64Fin 4294967295 0)
    else (if m <? 4294967295 * 2 ^ (- e) then F64Fin m e else F64Fin 4294967295 0).
Proof.
  unfold f64_min, f64_ltb. simpl f64_is_nan. cbv iota.
  destruct (Z.leb_spec 0 e) as [He|He].
  - rewrite Z.min_r by lia.
    rewrite Z.sub_diag, Z.sub_0_r, Z.pow_0_r, Z.mul_1_r. done.
  - rewrite Z.min_l by lia.
    rewrite Z.sub_diag, Z.sub_0_l, Z.pow_0_r, Z.mul_1_r. done.
Qed.

(** Clipping a finite value and truncating the result is clamping the
    truncated value. *)
Lemma clip_finite (m e : Z) :
  py_int ext (PyFloat (f64_min (f64_max (F64Fin m e) (F64Fin (-1) 0))
                               (F64Fin 4294967295 0)))
  = Return (seed_clamp (f64_trunc m e)).
Proof.
  rewrite f64_max_lo. unfold seed_clamp. change (2 ^ 32 - 1) with 4294967295.
  destruct (Z.leb_spec 0 e) as [He|He].
  - assert (HP : 0 < 2 ^ e) by (apply Z.pow_pos_nonneg; lia).
    destruct (Z.ltb_spec (-1) (m * 2 ^ e)) as [Hlo|Hlo].
    + rewrite f64_min_hi. destruct (Z.leb_spec 0 e) as [_|?]; [|lia].
      destruct (Z.ltb_spec (m * 2 ^ e) 4294967295) as [Hhi|Hhi]; try change (py_int ext (PyFloat (F64Fin 4294967295 0))) with (@Return Z 4294967295); cbn [py_int];
        unfold f64_trunc; destruct (Z.leb_spec 0 e); f_equal; lia.
    + change (py_int ext _) with (@Return Z (-1)). unfold f64_trunc. destruct (Z.leb_spec 0 e); f_equal; lia.
  - assert (HP : 0 < 2 ^ (- e)) by (apply Z.pow_pos_nonneg; lia).
    destruct (Z.ltb_spec (- 2 ^ (- e)) m) as [Hlo|Hlo].
    + rewrite f64_min_hi. destruct (Z.leb_spec 0 e) as [?|_]; [lia|].
      destruct (Z.ltb_spec m (4294967295 * 2 ^ (- e))) as [Hhi|Hhi]; try change (py_int ext (PyFloat (F64Fin 4294967295 0))) with (@Return Z 4294967295); cbn [py_int];
        unfold f64_trunc; destruct (Z.leb_spec 0 e); try lia; f_equal.
      * pose proof (quot_le_bound m 4294967295 (2 ^ (- e)) HP ltac:(lia)).
        pose proof (quot_ge_bound m (-1) (2 ^ (- e)) HP ltac:(lia)).
        lia.
      * pose proof (quot_ge_bound m 4294967295 (2 ^ (- e)) HP ltac:(lia)).
        lia.
    + change (py_int ext _) with (@Return Z (-1)). unfold f64_trunc. destruct (Z.leb_spec 0 e); try lia. f_equal.
      pose proof (quot_le_bound m (-1) (2 ^ (- e)) HP ltac:(lia)).
      lia.
Qed.

Lemma seed_clamp_range (z : Z) : -1 <= seed_clamp z <= 2 ^ 32 - 1.
Proof. unfold seed_clamp. change (2 ^ 32 - 1) with 4294967295. lia. Qed.

(** What [np.clip] and [int] make of a float64 seed. *)
Lemma clip_seed_f64 (f : float64) :
  clip_seed ext (PyFloat f)
  = match f with
    | F64NaN => Raise ValueError
    | F64Inf neg => Return (if neg then -1 else 2 ^ 32 - 1)
    | F64Fin m e => Return (seed_clamp (f64_trunc m e))
    end.
Proof.
  unfold clip_seed, np_clip, np_as_float64.
  change (f64_of_Z (-1)) with (F64Fin (-1) 0).
  change (f64_of_Z (2 ^ 32 - 1)) with (F64Fin 4294967295 0).
  destruct f as [|[|]|m e]; [done..|].
  apply clip_finite.
Qed.

(** An integer and its conversion to float64 clamp to the same seed:
    the conversion is exact below [2^53] and stays beyond [2^53]
    above. *)
Lemma f64_of_Z_clamp (z : Z) :
  exists m e, f64_of_Z z = F64Fin m e /\ seed_clamp (f64_trunc m e) = seed_clamp z.
Proof.
  unfold f64_of_Z.
  destruct (Z.leb_spec (Z.log2 (Z.abs z) - 52) 0) as [Hk|Hk].
  - exists z, 0. split; [done|]. unfold f64_trunc. simpl. by rewrite Z.mul_1_r.
  - set (a := Z.abs z) in *. set (k := Z.log2 a - 52) in *.
    assert (Ha : 0 < a).
    { destruct (Z.eq_dec a 0) as [H0|]; [|lia].
      unfold k in Hk. rewrite H0 in Hk. simpl in Hk. lia. }
    assert (Hm : 2 ^ 52 <= Z.shiftr a k).
    { rewrite Z.shiftr_div_pow2 by lia.
      apply Z.div_le_lower_bound; [apply Z.pow_pos_nonneg; lia|].
      rewrite Z.mul_comm, <- Z.pow_add_r by lia.
      replace (52 + k) with (Z.log2 a) by lia.
      apply Z.log2_spec. done. }
    set (m := Z.shiftr a k) in *.
    match goal with
    | |- context [if ?b then m + 1 else m] => set (m' := if b then m + 1 else m)
    end.
    assert (Hm' : 2 ^ 52 <= m') by (subst m'; destruct (_ || _); lia).
    exists (Z.sgn z * m'), k. split; [done|].
    assert (Hpk : 2 <= 2 ^ k).
    { change 2 with (2 ^ 1) at 1. apply Z.pow_le_mono_r; lia. }
    assert (Hz : 2 ^ 53 <= a).
    { etrans; [|apply (Z.log2_spec a Ha)]. apply Z.pow_le_mono_r; lia. }
    unfold f64_trunc, seed_clamp. destruct (Z.leb_spec 0 k) as [_|?]; [|lia].
    change (2 ^ 32 - 1) with 4294967295.
    change (2 ^ 52) with 4503599627370496 in *.
    change (2 ^ 53) with 9007199254740992 in *.
    destruct (Z.abs_spec z) as [[Hz0 Habs]|[Hz0 Habs]]; fold a in Habs.
    + rewrite Z.sgn_pos by lia. nia.
    + rewrite Z.sgn_neg by lia. nia.
Qed.

(** What [np.clip] and [int] make of an integer seed that fits a 64-bit
    array element. *)
Lemma clip_seed_int (z : Z) :
  - 2 ^ 63 <= z < 2 ^ 64 -> clip_seed ext (PyInt z) = Return (seed_clamp z).
Proof.
  intros Hz. unfold clip_seed, np_clip, np_as_float64.
  destruct (Z.leb_spec (- 2 ^ 63) z); [|lia].
  destruct (Z.ltb_spec z (2 ^ 64)); [|lia]. simpl andb. cbv iota.
  change (f64_of_Z (-1)) with (F64Fin (-1) 0).
  change (f64_of_Z (2 ^ 32 - 1)) with (F64Fin 4294967295 0).
  destruct (f64_of_Z_clamp z) as (m & e & -> & <-).
  apply clip_finite.
Qed.

(** Whatever the value, a seed that comes out of the clipping is in
    range. *)
Lemma clip_seed_range (v : pyval) (s : Z) :
  clip_seed ext v = Return s -> -1 <= s <= 2 ^ 32 - 1.
Proof.
  destruct v as [|b|z|f|t|id]; try discriminate.
  - destruct b; intros [= <-]; vm_compute; split; discriminate.
  - unfold clip_seed, np_clip, np_as_float64.
    destruct (_ && _) eqn:Hrange; [|discriminate].
    apply andb_true_iff in Hrange as [?%Z.leb_le ?%Z.ltb_lt].
    fold (np_as_float64 (PyInt z)). 
    pose proof (clip_seed_int z ltac:(lia)) as Hint.
    unfold clip_seed, np_clip, np_as_float64 in Hint.
    destruct (_ && _); [|discriminate].
    rewrite Hint. intros [= <-]. apply seed_clamp_range.
  - rewrite clip_seed_f64. destruct f as [|[|]|m e]; intros [= <-].
    + vm_compute; split; discriminate.
    + vm_compute; split; discriminate.
    + apply seed_clamp_range.
Qed.

Lemma clip_seed_int_inv (z s : Z) :
  clip_seed ext (PyInt z) = Return s -> s = seed_clamp z.
Proof.
  intros Hs.
  destruct (decide (- 2 ^ 63 <= z < 2 ^ 64)) as [Hz|Hz].
  - rewrite clip_seed_int in Hs by done. congruence.
  - unfold clip_seed, np_clip, np_as_float64 in Hs.
    destruct (Z.leb_spec (- 2 ^ 63) z); destruct (Z.ltb_spec z (2 ^ 64));
      simpl in Hs; try discriminate Hs. lia.
Qed.

(** A float64 below [-1] truncates to at most [-1], one above
    [2**32 - 1] to at least [2**32 - 1]. *)
Lemma f64_trunc_below (m e : Z) :
  f64_ltb (F64Fin m e) (F64Fin (-1) 0) = true -> f64_trunc m e <= -1.
Proof.
  unfold f64_ltb, f64_trunc. intros Hlt%Z.ltb_lt.
  destruct (Z.leb_spec 0 e) as [He|He].
  - rewrite Z.min_r, Z.sub_diag, Z.sub_0_r, Z.pow_0_r in Hlt by lia. lia.
  - rewrite Z.min_l, Z.sub_diag, Z.sub_0_l, Z.pow_0_r in Hlt by lia.
    apply quot_le_bound; [apply Z.pow_pos_nonneg|]; lia.
Qed.

Lemma f64_trunc_above (m e : Z) :
  f64_ltb (F64Fin 4294967295 0) (F64Fin m e) = true -> 4294967295 <= f64_trunc m e.
Proof.
  unfold f64_ltb, f64_trunc. intros Hlt%Z.ltb_lt.
  destruct (Z.leb_spec 0 e) as [He|He].
  - rewrite Z.min_l, Z.sub_diag, Z.sub_0_r, Z.pow_0_r in Hlt by lia. lia.
  - rewrite Z.min_r, Z.sub_diag, Z.sub_0_l, Z.pow_0_r in Hlt by lia.
    apply quot_ge_bound; [apply Z.pow_pos_nonneg|]; lia.
Qed.

End SeedClip.

(** A seed that reaches [synthesize_audio] is in range, and it is the
    clamped argument when that is an integer other than 0, the clipped
    and truncated argument when that is a float other than 0. *)
Lemma tts_generate_seed_passed (ext : externals) (a : tts_args) (c : synth_call) :
  EvSynthesizeAudio c ∈ calls (tts_generate ext a) ->
  -1 <= sc_infer_seed c <= 2 ^ 32 - 1
  /\ (forall z, ta_infer_seed a = PyInt z -> z <> 0 ->
        (z < -1 -> sc_infer_seed c = -1)
        /\ (2 ^ 32 - 1 < z -> sc_infer_seed c = 2 ^ 32 - 1)
        /\ (-1 <= z <= 2 ^ 32 - 1 -> sc_infer_seed c = z))
  /\ (forall f, ta_infer_seed a = PyFloat f -> f64_is_zero f = false ->
        (f64_ltb f (F64Fin (-1) 0) = true -> sc_infer_seed c = -1)
        /\ (f64_ltb (F64Fin (2 ^ 32 - 1) 0) f = true -> sc_infer_seed c = 2 ^ 32 - 1)
        /\ (forall m e, f = F64Fin m e -> sc_infer_seed c = seed_clamp (f64_trunc m e))).
Proof.
  intros Hin.
  destruct (tts_generate_synthesize_audio_inv ext a c Hin) as (params & _ & Hseed & _).
  split; [by eapply clip_seed_range|]. split.
  - intros z Hz Hnz. rewrite Hz in Hseed. unfold py_or in Hseed. simpl in Hseed.
    destruct (Z.eqb_spec z 0) as [?|_]; [done|]. simpl in Hseed.
    apply clip_seed_int_inv in Hseed. rewrite Hseed. unfold seed_clamp.
    change (2 ^ 32 - 1) with 4294967295. lia.
  - intros f Hf Hnz. rewrite Hf in Hseed. unfold py_or in Hseed. simpl in Hseed.
    rewrite Hnz in Hseed. simpl in Hseed. rewrite clip_seed_f64 in Hseed.
    change (2 ^ 32 - 1) with 4294967295 in *.
    destruct f as [|neg|m e]; [discriminate Hseed|..]; injection Hseed as <-.
    + destruct neg; repeat split; try done; simpl; discriminate.
    + split; [|split].
      * intros Hlt%f64_trunc_below. unfold seed_clamp.
        change (2 ^ 32 - 1) with 4294967295. lia.
      * intros Hlt%f64_trunc_above. unfold seed_clamp.
        change (2 ^ 32 - 1) with 4294967295. lia.
      * by intros ? ? [= <- <-].
Qed.

(** Without the normalizer and the speaker file in the way, every step
    of [tts_generate] up to synthesis returns, and synthesis is called
    with the clipped seed. *)
Lemma tts_generate_reaches_synthesis (ext : externals) (a : tts_args)
    (top_k : pyval) (params : gmap string pyval) (seed : Z) :
  slice_to (strip (ta_text a)) (tts_max ext) <> [] ->
  tts_top_k ext (ta_top_k a) = Return top_k ->
  calc_spk_style ext (ta_spk a) (tts_style (ta_style a)) = Return params ->
  clip_seed ext (py_or (ta_infer_seed a) (dict_get params "seed" (ta_infer_seed a)))
  = Return seed ->
  (truthy (ta_disable_normalize a) = false ->
   exists t, text_normalize ext (slice_to (strip (ta_text a)) (tts_max ext)) = Return t) ->
  (truthy (ta_spk_file a) = true ->
   exists spk, Speaker_from_file ext (ta_spk_file a) = Return spk) ->
  exists c, EvSynthesizeAudio c ∈ calls (tts_generate ext a) /\ sc_infer_seed c = seed.
Proof.
  intros Htext Htopk Hstyle Hseed Hnorm Hfile.
  rewrite tts_generate_unfold. simpl.
  rewrite bool_decide_eq_false_2 by done.
  unfold_M. rewrite Htopk, Hstyle, Hseed. simpl.
  destruct (truthy (ta_disable_normalize a)); simpl;
    [|destruct (Hnorm eq_refl) as [t ->]; simpl].
  all: destruct (truthy (ta_spk_file a)); simpl;
    [destruct (Hfile eq_refl) as [spk ->]; simpl|].
  all: match goal with |- context [synthesize_audio _ ?c0] => exists c0 end.
  all: split; [|reflexivity].
  all: repeat case_match; simplify_eq; set_solver.
Qed.

(** When the steps around it return and the clipping of the seed
    raises, [tts_generate] raises the same exception. *)
Lemma tts_generate_seed_raises (ext : externals) (a : tts_args) (e : exn) :
  tts_steps_return ext a ->
  (forall params,
     clip_seed ext (py_or (ta_infer_seed a) (dict_get params "seed" (ta_infer_seed a)))
     = Raise e) ->
  result (tts_generate ext a) = Raise e.
Proof.
  intros (Htext & [top_k Htopk] & [params Hstyle] & _) Hseed.
  rewrite tts_generate_unfold. simpl.
  rewrite bool_decide_eq_false_2 by done. unfold_M.
  by rewrite Htopk, Hstyle, Hseed.
Qed.

(** When the steps around it return and the clipping of the seed
    returns, synthesis is called. *)
Lemma tts_generate_seed_returns (ext : externals) (a : tts_args) (seed : Z) :
  tts_steps_return ext a ->
  (forall params,
     clip_seed ext (py_or (ta_infer_seed a) (dict_get params "seed" (ta_infer_seed a)))
     = Return seed) ->
  exists c, EvSynthesizeAudio c ∈ calls (tts_generate ext a) /\ sc_infer_seed c = seed.
Proof.
  intros (Htext & [top_k Htopk] & [params Hstyle] & Hnorm & Hfile) Hseed.
  by eapply tts_generate_reaches_synthesis.
Qed.

(** No synthesis call without a clipped seed. *)
Lemma tts_generate_no_seed_no_synthesis (ext : externals) (a : tts_args)
    (e : exn) (c : synth_call) :
  (forall params,
     clip_seed ext (py_or (ta_infer_seed a) (dict_get params "seed" (ta_infer_seed a)))
     = Raise e) ->
  ~ EvSynthesizeAudio c ∈ calls (tts_generate ext a).
Proof.
  intros Hseed Hin.
  destruct (tts_generate_synthesize_audio_inv ext a c Hin) as (params & _ & Hret & _).
  rewrite Hseed in Hret. discriminate Hret.
Qed.

Lemma clip_seed_int_out_of_range (ext : externals) (z : Z) :
  z < - 2 ^ 63 \/ 2 ^ 64 <= z -> clip_seed ext (PyInt z) = Raise TypeError.
Proof.
  intros Hz. unfold clip_seed, np_clip, np_as_float64.
  destruct (Z.leb_spec (- 2 ^ 63) z); destruct (Z.ltb_spec z (2 ^ 64)); simpl;
    try done; lia.
Qed.

(** C3, as stated, fails: [2**64] is a numeric seed above [2**32 - 1],
    yet it does not become [2**32 - 1]: [np.clip] rejects it,
    [tts_generate] raises right after [calc_spk_style] and no seed
    reaches [synthesize_audio]. *)
Lemma tts_generate_huge_seed_raises :
  ta_infer_seed tts_huge_seed = PyInt (2 ^ 64)
  /\ 2 ^ 32 - 1 < 2 ^ 64
  /\ (exists e, result (tts_generate ext_plain tts_huge_seed) = Raise e)
  /\ calls (tts_generate ext_plain tts_huge_seed)
     = [EvCalcSpkStyle (PyInt (-1)) (PyStr [])]
  /\ ~ (exists c, EvSynthesizeAudio c ∈ calls (tts_generate ext_plain tts_huge_seed)
                  /\ sc_infer_seed c = 2 ^ 32 - 1).
Proof.
  split; [reflexivity|]. split; [reflexivity|].
  split; [by exists TypeError|]. split; [reflexivity|].
  intros (c & Hin & _). vm_compute in Hin. log_inv Hin.
Qed.

(** C3, amended: every seed that reaches [synthesize_audio] is an
    integer of [-1, 2**32 - 1].  For an integer argument other than 0
    that fits a 64-bit array element ([-2**63 <= z < 2**64]) and for a
    float argument other than 0 that is not a NaN, synthesis is reached
    whenever the steps around the clipping return, with the argument
    clamped: below [-1] it becomes [-1], above [2**32 - 1] it becomes
    [2**32 - 1], an integer in range is unchanged and a float in range
    is truncated toward zero.  An integer outside the 64-bit range and
    a NaN make [tts_generate] raise instead, and no seed is passed. *)
Theorem tts_generate_seed_clamped (ext : externals) (a : tts_args) :
  (forall c, EvSynthesizeAudio c ∈ calls (tts_generate ext a) ->
     -1 <= sc_infer_seed c <= 2 ^ 32 - 1)
  /\ (forall z, ta_infer_seed a = PyInt z -> z <> 0 -> - 2 ^ 63 <= z < 2 ^ 64 ->
        (tts_steps_return ext a ->
         exists c, EvSynthesizeAudio c ∈ calls (tts_generate ext a))
        /\ (forall c, EvSynthesizeAudio c ∈ calls (tts_generate ext a) ->
              (z < -1 -> sc_infer_seed c = -1)
              /\ (2 ^ 32 - 1 < z -> sc_infer_seed c = 2 ^ 32 - 1)
              /\ (-1 <= z <= 2 ^ 32 - 1 -> sc_infer_seed c = z)))
  /\ (forall f, ta_infer_seed a = PyFloat f ->
        f64_is_zero f = false -> f64_is_nan f = false ->
        (tts_steps_return ext a ->
         exists c, EvSynthesizeAudio c ∈ calls (tts_generate ext a))
        /\ (forall c, EvSynthesizeAudio c ∈ calls (tts_generate ext a) ->
              (f64_ltb f (F64Fin (-1) 0) = true -> sc_infer_seed c = -1)
              /\ (f64_ltb (F64Fin (2 ^ 32 - 1) 0) f = true ->
                  sc_infer_seed c = 2 ^ 32 - 1)
              /\ (forall m e, f = F64Fin m e ->
                    sc_infer_seed c = seed_clamp (f64_trunc m e))))
  /\ (forall z, ta_infer_seed a = PyInt z -> z < - 2 ^ 63 \/ 2 ^ 64 <= z ->
        (forall c, ~ EvSynthesizeAudio c ∈ calls (tts_generate ext a))
        /\ (tts_steps_return ext a ->
            exists e, result (tts_generate ext a) = Raise e))
  /\ (ta_infer_seed a = PyFloat F64NaN ->
        (forall c, ~ EvSynthesizeAudio c ∈ calls (tts_generate ext a))
        /\ (tts_steps_return ext a ->
            result (tts_generate ext a) = Raise ValueError)).
Proof.
  split; [|split; [|split; [|split]]].
  - intros c Hin. by destruct (tts_generate_seed_passed ext a c Hin).
  - intros z Hz Hnz Hrange. split.
    + intros Hsteps.
      destruct (tts_generate_seed_returns ext a (seed_clamp z) Hsteps) as (c & Hin & _).
      * intros params. rewrite Hz. unfold py_or. simpl.
        destruct (Z.eqb_spec z 0) as [?|_]; [done|]. simpl.
        by apply clip_seed_int.
      * by exists c.
    + intros c Hin.
      destruct (tts_generate_seed_passed ext a c Hin) as (_ & Hint & _).
      by apply Hint.
  - intros f Hf Hnz Hnan. split.
    + intros Hsteps.
      assert (Hret : exists seed, clip_seed ext (PyFloat f) = Return seed).
      { rewrite clip_seed_f64. destruct f as [|neg|m e]; [done|by eexists..]. }
      destruct Hret as [seed Hret].
      destruct (tts_generate_seed_returns ext a seed Hsteps) as (c & Hin & _).
      * intros params. rewrite Hf. unfold py_or. simpl. by rewrite Hnz.
      * by exists c.
    + intros c Hin.
      destruct (tts_generate_seed_passed ext a c Hin) as (_ & _ & Hfloat).
      by apply Hfloat.
  - intros z Hz Hrange.
    assert (Hnz : z <> 0) by (change (2 ^ 63) with 9223372036854775808 in Hrange;
                              change (2 ^ 64) with 18446744073709551616 in Hrange; lia).
    assert (Hraise : forall params,
               clip_seed ext (py_or (ta_infer_seed a)
                                (dict_get params "seed" (ta_infer_seed a)))
               = Raise TypeError).
    { intros params. rewrite Hz. unfold py_or. simpl.
      destruct (Z.eqb_spec z 0) as [?|_]; [done|]. simpl.
      by apply clip_seed_int_out_of_range. }
    split.
    + intros c. by eapply tts_generate_no_seed_no_synthesis.
    + intros Hsteps. exists TypeError. by apply tts_generate_seed_raises.
  - intros Hnan.
    assert (Hraise : forall params,
               clip_seed ext (py_or (ta_infer_seed a)
                                (dict_get params "seed" (ta_infer_seed a)))
               = Raise ValueError).
    { intros params. by rewrite Hnan. }
    split.
    + intros c. by eapply tts_generate_no_seed_no_synthesis.
    + intros Hsteps. by apply tts_generate_seed_raises.
Qed.

Lemma tts_generate_seed_clamped_witness :
  tts_steps_return ext_plain tts_big_seed
  /\ exists c, EvSynthesizeAudio c ∈ calls (tts_generate ext_plain tts_big_seed)
               /\ sc_infer_seed c = 2 ^ 32 - 1.
Proof.
  assert (Hsteps : tts_steps_return ext_plain tts_big_seed).
  { split; [vm_compute; discriminate|].
    split; [by eexists|]. split; [by eexists|].
    split; [intros _; by eexists|]. intros Hfile. discriminate Hfile. }
  split; [exact Hsteps|].
  destruct (tts_generate_seed_clamped ext_plain tts_big_seed) as (_ & Hint & _).
  destruct (Hint 5000000000 eq_refl ltac:(lia) ltac:(vm_compute; split; [discriminate|reflexivity]))
    as (Hreach & Hseed).
  destruct (Hreach Hsteps) as [c Hin]. exists c. split; [exact Hin|].
  destruct (Hseed c Hin) as (_ & Habove & _).
  apply Habove. vm_compute. reflexivity.
Defined.

(** C4: the text [tts_generate] works on is the input without its
    surrounding whitespace, cut to its first [tts_max] characters: it is
    never longer than [tts_max], and it is the only text handed to the
    normalizer and, when normalization is off, to synthesis. *)
Theorem tts_generate_text_truncated (ext : externals) (a : tts_args) :
  0 <= tts_max ext ->
  (exists pre post,
     ta_text a = pre ++ strip (ta_text a) ++ post
     /\ Forall (fun c => is_space c = true) pre
     /\ Forall (fun c => is_space c = true) post
     /\ (forall c, head (strip (ta_text a)) = Some c -> is_space c = false)
     /\ (forall c, last (strip (ta_text a)) = Some c -> is_space c = false))
  /\ len (slice_to (strip (ta_text a)) (tts_max ext)) <= tts_max ext
  /\ slice_to (strip (ta_text a)) (tts_max ext) `prefix_of` strip (ta_text a)
  /\ (forall t, EvTextNormalize t ∈ calls (tts_generate ext a) ->
        t = slice_to (strip (ta_text a)) (tts_max ext))
  /\ (forall c, EvSynthesizeAudio c ∈ calls (tts_generate ext a) ->
        if truthy (ta_disable_normalize a)
        then sc_text c = slice_to (strip (ta_text a)) (tts_max ext)
        else text_normalize ext (slice_to (strip (ta_text a)) (tts_max ext))
             = Return (sc_text c)).
Proof.
  intros Hmax. split; [apply strip_spec|].
  split; [by apply slice_to_len|]. split; [apply slice_to_prefix|].
  split.
  - intros t. apply tts_generate_text_normalize_inv.
  - intros c Hin.
    by destruct (tts_generate_synthesize_audio_inv ext a c Hin)
      as (_ & _ & _ & _ & _ & _ & _ & _ & ?).
Qed.

Lemma tts_generate_text_truncated_witness :
  0 <= tts_max ext_short
  /\ len (slice_to (strip (ta_text tts_padded)) (tts_max ext_short)) <= 3
  /\ EvTextNormalize (str_lit "hel") ∈ calls (tts_generate ext_short tts_padded).
Proof.
  assert (Hmax : 0 <= tts_max ext_short) by (vm_compute; discriminate).
  destruct (tts_generate_text_truncated ext_short tts_padded Hmax) as (_ & Hlen & _).
  split; [exact Hmax|]. split; [exact Hlen|].
  vm_compute. apply list_elem_of_further. apply list_elem_of_here.
Defined.

(** C5: [tts_generate] and [synthesize_ssml] return [None] or a pair
    (sample rate, sample buffer) taken from the enhancer and the int16
    conversion; a text, respectively an SSML string, that strips to the
    empty string gives [None] with no call made at all, so neither the
    parser nor synthesis is invoked. *)
Theorem blank_input_returns_None (ext : externals) :
  (forall a, strip (ta_text a) = [] ->
     result (tts_generate ext a) = Return None /\ calls (tts_generate ext a) = [])
  /\ (forall a, strip (sa_ssml a) = [] ->
        result (synthesize_ssml ext a) = Return None
        /\ calls (synthesize_ssml ext a) = [])
  /\ (forall a sr audio,
        result (tts_generate ext a) = Return (Some (sr, audio)) ->
        exists c rate raw enhanced,
          EvSynthesizeAudio c ∈ calls (tts_generate ext a)
          /\ synthesize_audio ext c = Return (rate, raw)
          /\ _apply_audio_enhance ext raw rate (ta_enable_denoise a) (ta_enable_enhance a)
             = Return (enhanced, sr)
          /\ audio_to_int16 ext enhanced = Return audio)
  /\ (forall a sr audio,
        result (synthesize_ssml ext a) = Return (Some (sr, audio)) ->
        exists wav rate enhanced,
          _apply_audio_enhance ext wav rate (sa_enable_denoise a) (sa_enable_enhance a)
          = Return (enhanced, sr)
          /\ audio_to_int16 ext enhanced = Return audio).
Proof.
  split; [|split; [|split]].
  - intros a Hblank. rewrite tts_generate_unfold. simpl. rewrite Hblank.
    unfold slice_to. rewrite take_nil. done.
  - intros a Hblank. rewrite synthesize_ssml_unfold. simpl. rewrite Hblank. done.
  - apply tts_generate_result_inv.
  - apply synthesize_ssml_result_inv.
Qed.

(** C10: for an SSML string that does not strip to the empty string,
    when the parser returns and [segments_length_limit] with [ssml_max]
    leaves no segment, [synthesize_ssml] returns [None]; the parser is
    the only collaborator called, synthesis is not. *)
Theorem synthesize_ssml_no_segment (ext : externals) (a : ssml_args)
    (parser : pyval) (segments : list segment) :
  strip (sa_ssml a) <> [] ->
  create_ssml_parser ext = Return parser ->
  parser_parse ext parser (strip (sa_ssml a)) = Return segments ->
  segments_length_limit segments (ssml_max ext) = [] ->
  result (synthesize_ssml ext a) = Return None
  /\ calls (synthesize_ssml ext a)
     = [EvCreateSsmlParser; EvParserParse parser (strip (sa_ssml a))]
  /\ Forall (fun ev => is_synthesis ev = false) (calls (synthesize_ssml ext a)).
Proof.
  intros Hblank Hparser Hparse Hlimit.
  rewrite synthesize_ssml_unfold. simpl.
  rewrite bool_decide_eq_false_2 by done.
  unfold_M. rewrite Hparser, Hparse, Hlimit. simpl.
  repeat split. by repeat constructor.
Qed.

Lemma synthesize_ssml_no_segment_witness :
  segments_length_limit [SSMLSegment (str_lit "hello") ∅] (ssml_max ext_short) = []
  /\ result (synthesize_ssml ext_short ssml_hello) = Return None.
Proof.
  assert (Hlimit : segments_length_limit [SSMLSegment (str_lit "hello") ∅]
                     (ssml_max ext_short) = []) by reflexivity.
  split; [exact Hlimit|].
  refine (proj1 (synthesize_ssml_no_segment ext_short ssml_hello (PyObj 10)
                   [SSMLSegment (str_lit "hello") ∅] _ eq_refl eq_refl Hlimit)).
  vm_compute. discriminate.
Defined.

(** ** [load_spk_info] *)

(** The result of [load_spk_info] on a file, step by step. *)
Lemma load_spk_info_result (ext : externals) (file : pyval) :
  file <> PyNone ->
  result (load_spk_info ext file)
  = match Speaker_from_file ext file with
    | Raise _ => Return (str_lit "load failed")
    | Return spk =>
        match Speaker_to_json ext spk with
        | Raise _ => Return (str_lit "load failed")
        | Return infos =>
            match fmt_field ext infos "name", fmt_field ext infos "gender",
                  fmt_field ext infos "describe" with
            | Return name, Return gender, Return describe =>
                Return (spk_info_text name gender describe)
            | _, _, _ => Return (str_lit "load failed")
            end
        end
    end.
Proof.
  intros Hfile. unfold load_spk_info, fmt_field.
  destruct file; [done|..]; unfold_M; simpl.
  all: repeat match goal with
         | |- context [match ?x with _ => _ end] =>
             lazymatch x with
             | context [match _ with _ => _ end] => fail
             | _ => destruct x eqn:?; simpl
             end
         end; try done.
Qed.

(** C6: [load_spk_info] always returns a string and never raises: "empty"
    for [None], and "load failed" as soon as loading the speaker,
    [to_json] or the reading and formatting of one of the three fields
    raises, whatever the exception. *)
Theorem load_spk_info_never_raises (ext : externals) (file : pyval) :
  (exists s, result (load_spk_info ext file) = Return s)
  /\ (file = PyNone ->
      result (load_spk_info ext file) = Return (str_lit "empty")
      /\ calls (load_spk_info ext file) = [])
  /\ (file <> PyNone ->
      (forall e, Speaker_from_file ext file = Raise e ->
         result (load_spk_info ext file) = Return (str_lit "load failed"))
      /\ (forall spk e,
            Speaker_from_file ext file = Return spk ->
            Speaker_to_json ext spk = Raise e ->
            result (load_spk_info ext file) = Return (str_lit "load failed"))
      /\ (forall spk infos name e,
            Speaker_from_file ext file = Return spk ->
            Speaker_to_json ext spk = Return infos ->
            name ∈ ["name"; "gender"; "describe"]%string ->
            fmt_field ext infos name = Raise e ->
            result (load_spk_info ext file) = Return (str_lit "load failed"))).
Proof.
  split; [|split].
  - assert (file = PyNone \/ file <> PyNone) as [->|Hfile]
      by (destruct file; (by left) || (by right)); [by eexists|].
    rewrite load_spk_info_result by done.
    repeat case_match; by eexists.
  - by intros ->.
  - intros Hfile. rewrite load_spk_info_result by done.
    split; [|split].
    + by intros e ->.
    + by intros spk e -> ->.
    + intros spk infos name e -> -> Hname Hraise.
      log_inv Hname; subst name; rewrite Hraise; repeat case_match; done.
Qed.

(** ** [split_long_text] *)

(** The loop appends one row per sentence, numbered from [i]. *)
Lemma split_long_text_loop_spec (sentences : list str) :
  forall (i : Z) (data : list (list pyval)),
    split_long_text_loop i sentences data
    = data ++ imap (fun j s => [PyInt (i + Z.of_nat j); PyStr s; PyInt (len s)]) sentences.
Proof.
  induction sentences as [|text rest IH]; intros i data; simpl.
  - by rewrite app_nil_r.
  - rewrite IH, <- app_assoc. simpl. rewrite Z.add_0_r.
    apply (f_equal (app data)), (f_equal (cons _)).
    apply imap_ext. intros j s _. simpl. do 2 f_equal. lia.
Qed.

(** A comprehension returns exactly when each element does. *)
Lemma mapM_result {A B} (f : A -> M B) (l : list A) (ys : list B) :
  result (mapM f l) = Return ys <-> Forall2 (fun x y => result (f x) = Return y) l ys.
Proof.
  revert ys. induction l as [|x rest IH]; intros ys; simpl.
  - split.
    + intros [= <-]. constructor.
    + by intros ->%Forall2_nil_inv_l.
  - unfold_M. destruct (f x) as [[y|e] log] eqn:Hfx; simpl.
    + destruct (mapM f rest) as [[ys'|e] log'] eqn:Hrest; simpl.
      * split.
        -- intros [= <-]. constructor; [by rewrite Hfx|]. by apply IH.
        -- intros (y' & ys'' & Hy & Hrest' & ->)%Forall2_cons_inv_l.
           rewrite Hfx in Hy. injection Hy as <-.
           apply IH in Hrest'. simpl in Hrest'. congruence.
      * split; [done|].
        intros (y' & ys'' & _ & Hrest' & ->)%Forall2_cons_inv_l.
        apply IH in Hrest'. done.
    + split; [done|].
      intros (y' & ys'' & Hy & _)%Forall2_cons_inv_l.
      by rewrite Hfx in Hy.
Qed.

(** C7: [split_long_text] returns exactly when the splitter and the
    normalizer return, and then row [i] is [[i, s_i, len(s_i)]] for the
    [i]-th normalized sentence [s_i]: its first element is its position
    and its third the length of its second. *)
Theorem split_long_text_rows (ext : externals) (long_text_input : str) :
  (forall rows,
     result (split_long_text ext long_text_input) = Return rows <->
     exists spliter raw sentences,
       SentenceSplitter ext (spliter_threshold ext) = Return spliter
       /\ spliter_parse ext spliter long_text_input = Return raw
       /\ Forall2 (fun r s => text_normalize ext r = Return s) raw sentences
       /\ rows = imap (fun i s => [PyInt (Z.of_nat i); PyStr s; PyInt (len s)]) sentences)
  /\ (forall rows (i : nat) row,
        result (split_long_text ext long_text_input) = Return rows ->
        rows !! i = Some row ->
        exists s, row = [PyInt (Z.of_nat i); PyStr s; PyInt (len s)]).
Proof.
  assert (Hiff : forall rows,
     result (split_long_text ext long_text_input) = Return rows <->
     exists spliter raw sentences,
       SentenceSplitter ext (spliter_threshold ext) = Return spliter
       /\ spliter_parse ext spliter long_text_input = Return raw
       /\ Forall2 (fun r s => text_normalize ext r = Return s) raw sentences
       /\ rows = imap (fun i s => [PyInt (Z.of_nat i); PyStr s; PyInt (len s)]) sentences).
  { intros rows. unfold split_long_text.
    pose proof (mapM_result (fun s => call (EvTextNormalize s) (text_normalize ext s))) as Hmap.
    unfold_M. simpl.
    destruct (SentenceSplitter ext (spliter_threshold ext)) as [spliter|e] eqn:Hnew;
      simpl; cycle 1.
    { split; [done|]. by intros (? & ? & ? & ? & _). }
    destruct (spliter_parse ext spliter long_text_input) as [raw|e] eqn:Hparse;
      simpl; cycle 1.
    { split; [done|]. intros (? & ? & ? & [= <-] & ? & _). congruence. }
    specialize (Hmap raw). simpl in Hmap.
    destruct (mapM _ raw) as [[sentences|e] log]; simpl in *.
    - split.
      + intros [= <-]. exists spliter, raw, sentences.
        split; [done|]. split; [done|]. split; [by apply Hmap|].
        rewrite split_long_text_loop_spec. done.
      + intros (? & raw' & sentences' & [= <-] & Hraw & Hall & ->).
        assert (raw' = raw) as -> by congruence.
        apply Hmap in Hall. injection Hall as ->.
        by rewrite split_long_text_loop_spec.
    - split; [done|].
      intros (? & raw' & sentences' & [= <-] & Hraw & Hall & _).
      assert (raw' = raw) as -> by congruence.
      by apply Hmap in Hall. }
  split; [exact Hiff|].
  intros rows i row (_ & _ & sentences & _ & _ & _ & ->)%Hiff Hrow.
  rewrite list_lookup_imap in Hrow.
  destruct (sentences !! i) as [s|]; [|done].
  injection Hrow as <-. by exists s.
Qed.

(** ** Defaults and fallbacks of [tts_generate] and [synthesize_ssml] *)

Lemma batch_size_or_raise (ext : externals) (v : pyval) (e : exn) (fallback : Z) :
  py_int ext v = Raise e -> batch_size_or ext v fallback = fallback.
Proof. unfold batch_size_or. by intros ->. Qed.

(** A batch size whose conversion raises reaches [synthesize_audio] as 4,
    the default of the signature of [tts_generate]. *)
Lemma tts_generate_batch_size_fallback (ext : externals) (a : tts_args)
    (c : synth_call) (e : exn) :
  py_int ext (ta_batch_size a) = Raise e ->
  EvSynthesizeAudio c ∈ calls (tts_generate ext a) ->
  PyInt (sc_batch_size c) = ta_batch_size (tts_generate_defaults (ta_text a)).
Proof.
  intros Hraise Hin.
  destruct (tts_generate_synthesize_audio_inv ext a c Hin) as (_ & _ & _ & _ & _ & _ & _ & -> & _).
  by rewrite (batch_size_or_raise _ _ _ _ Hraise).
Qed.

(** A batch size whose conversion raises reaches [SynthesizeSegments]
    as 8. *)
Lemma synthesize_ssml_batch_size_raise (ext : externals) (a : ssml_args)
    (batch_size : Z) (eos spliter_thr : pyval) (e : exn) :
  py_int ext (sa_batch_size a) = Raise e ->
  EvSynthesizeSegments batch_size eos spliter_thr ∈ calls (synthesize_ssml ext a) ->
  batch_size = 8.
Proof.
  intros Hraise ->%synthesize_ssml_batch_size_inv.
  by rewrite (batch_size_or_raise _ _ _ _ Hraise).
Qed.

(** C2: on [batch_size=None], whose conversion raises [TypeError],
    neither function raises; [tts_generate] goes on with 4, the default
    of its signature, but [synthesize_ssml] goes on with 8 although the
    default of its signature is 4. *)
Theorem synthesize_ssml_batch_size_fallback :
  py_int ext_one_segment (sa_batch_size ssml_no_batch_size) = Raise TypeError
  /\ sa_batch_size (synthesize_ssml_defaults (sa_ssml ssml_no_batch_size)) = PyInt 4
  /\ result (synthesize_ssml ext_one_segment ssml_no_batch_size)
     = Return (Some (PyInt 24000, PyObj 15))
  /\ EvSynthesizeSegments 8 (sa_eos ssml_no_batch_size) (sa_spliter_thr ssml_no_batch_size)
     ∈ calls (synthesize_ssml ext_one_segment ssml_no_batch_size)
  /\ (forall batch_size eos spliter_thr,
        EvSynthesizeSegments batch_size eos spliter_thr
        ∈ calls (synthesize_ssml ext_one_segment ssml_no_batch_size) ->
        batch_size <> 4)
  /\ ta_batch_size (tts_generate_defaults (ta_text tts_no_batch_size)) = PyInt 4
  /\ (exists c, EvSynthesizeAudio c ∈ calls (tts_generate ext_plain tts_no_batch_size)
                /\ sc_batch_size c = 4).
Proof.
  split; [done|]. split; [done|]. split; [by vm_compute|].
  split; [vm_compute; do 2 apply list_elem_of_further; apply list_elem_of_here|].
  split.
  - intros batch_size eos spliter_thr Hin.
    by rewrite (synthesize_ssml_batch_size_raise ext_one_segment ssml_no_batch_size
                  _ _ _ TypeError eq_refl Hin).
  - split; [done|]. eexists. split.
    + vm_compute. do 2 apply list_elem_of_further. apply list_elem_of_here.
    + done.
Qed.

(** C9, as stated, fails: with a style that supplies neither seed nor
    temperature, the call with [infer_seed=0] and [temperature=0] hands
    seed 0 and temperature 0 to [synthesize_audio]. *)
Lemma tts_generate_passes_zero_seed :
  calc_spk_style ext_plain (ta_spk tts_zero_seed) (tts_style (ta_style tts_zero_seed))
  = Return ∅
  /\ ta_infer_seed tts_zero_seed = PyInt 0
  /\ ta_temperature tts_zero_seed = PyInt 0
  /\ exists c, EvSynthesizeAudio c ∈ calls (tts_generate ext_plain tts_zero_seed)
               /\ sc_infer_seed c = 0
               /\ sc_temperature c = PyInt 0.
Proof.
  split; [done|]. split; [done|]. split; [done|].
  eexists. split.
  - vm_compute. do 2 apply list_elem_of_further. apply list_elem_of_here.
  - done.
Qed.

(** C9, amended: a falsy [temperature], [infer_seed], [prefix],
    [prompt1] or [prompt2] is replaced by the value the style supplies
    under that key when it supplies one; when it supplies none, the
    falsy argument itself is kept ([""] for the prompts), so that seed 0
    and temperature 0 reach synthesis with a style that has no seed and
    no temperature. *)
Theorem tts_generate_falsy_arguments (ext : externals) (a : tts_args) (c : synth_call) :
  EvSynthesizeAudio c ∈ calls (tts_generate ext a) ->
  exists params,
    calc_spk_style ext (ta_spk a) (tts_style (ta_style a)) = Return params
    /\ sc_temperature c
       = (if truthy (ta_temperature a) then ta_temperature a
          else default (ta_temperature a) (params !! "temperature"))
    /\ sc_prefix c
       = (if truthy (ta_prefix a) then ta_prefix a
          else default (ta_prefix a) (params !! "prefix"))
    /\ sc_prompt1 c
       = (if truthy (ta_prompt1 a) then ta_prompt1 a
          else default (PyStr []) (params !! "prompt1"))
    /\ sc_prompt2 c
       = (if truthy (ta_prompt2 a) then ta_prompt2 a
          else default (PyStr []) (params !! "prompt2"))
    /\ clip_seed ext (if truthy (ta_infer_seed a) then ta_infer_seed a
                      else default (ta_infer_seed a) (params !! "seed"))
       = Return (sc_infer_seed c)
    /\ (ta_infer_seed a = PyInt 0 -> params !! "seed" = None -> sc_infer_seed c = 0)
    /\ (truthy (ta_temperature a) = false -> params !! "temperature" = None ->
        sc_temperature c = ta_temperature a).
Proof.
  intros Hin.
  destruct (tts_generate_synthesize_audio_inv ext a c Hin)
    as (params & Hstyle & Hseed & Htemp & Hprefix & Hp1 & Hp2 & _).
  unfold py_or, dict_get in *.
  exists params. split; [done|].
  assert (Hget : forall (d v : pyval) key,
            match params !! key with Some x => x | None => d end = v ->
            v = default d (params !! key)).
  { intros d v key <-. by destruct (params !! key). }
  split; [by destruct (truthy (ta_temperature a)); [|apply Hget]|].
  split; [by destruct (truthy (ta_prefix a)); [|apply Hget]|].
  split; [by destruct (truthy (ta_prompt1 a)); [|apply Hget]|].
  split; [by destruct (truthy (ta_prompt2 a)); [|apply Hget]|].
  split; [|split].
  - rewrite <- Hseed. destruct (truthy (ta_infer_seed a)); [done|].
    by destruct (params !! "seed").
  - intros Hzero Hnone. rewrite Hzero, Hnone in Hseed.
    change (clip_seed ext (PyInt 0) = Return (sc_infer_seed c)) in Hseed.
    rewrite clip_seed_int in Hseed by (vm_compute; split; [discriminate|reflexivity]).
    by injection Hseed as <-.
  - intros Hfalsy Hnone. by rewrite Htemp, Hfalsy, Hnone.
Qed.

Lemma tts_generate_falsy_arguments_witness :
  exists c, EvSynthesizeAudio c ∈ calls (tts_generate ext_styled tts_zero_seed)
            /\ sc_infer_seed c = 42
            /\ sc_temperature c = PyInt 1.
Proof.
  assert (Hin : exists c, EvSynthesizeAudio c ∈ calls (tts_generate ext_styled tts_zero_seed)).
  { eexists. vm_compute. do 2 apply list_elem_of_further. apply list_elem_of_here. }
  destruct Hin as [c Hin]. exists c. split; [exact Hin|].
  destruct (tts_generate_falsy_arguments ext_styled tts_zero_seed c Hin)
    as (params & Hstyle & Htemp & _ & _ & _ & Hseed & _).
  injection Hstyle as <-. split.
  - match type of Hseed with
    | ?seed = _ => assert (Hval : seed = Return 42) by (vm_compute; reflexivity)
    end.
    rewrite Hval in Hseed. by injection Hseed as <-.
  - rewrite Htemp. reflexivity.
Defined.

(** ** The functions on concrete inputs *)

Example strip_example :
  strip (str_lit "  hello world   ") = str_lit "hello world".
Proof. reflexivity. Qed.

(** A negative bound of a slice counts from the end. *)
Example slice_to_negative : slice_to (str_lit "abc") (-1) = str_lit "ab".
Proof. reflexivity. Qed.

Example f64_of_Z_rounds_to_even :
  f64_of_Z (2 ^ 53 + 1) = F64Fin (2 ^ 52) 1 /\ f64_of_Z (2 ^ 53 + 3) = F64Fin (2 ^ 52 + 2) 1.
Proof. split; reflexivity. Qed.

Example clip_seed_examples :
  clip_seed ext_plain (PyInt (-7)) = Return (-1)
  /\ clip_seed ext_plain (PyInt 123456) = Return 123456
  /\ clip_seed ext_plain (PyInt (2 ^ 40)) = Return (2 ^ 32 - 1)
  /\ clip_seed ext_plain (PyFloat (F64Fin 7 (-1))) = Return 3
  /\ clip_seed ext_plain (PyFloat F64NaN) = Raise ValueError
  /\ clip_seed ext_plain PyNone = Raise TypeError.
Proof. repeat split; reflexivity. Qed.

Example load_spk_info_examples :
  result (load_spk_info ext_plain PyNone) = Return (str_lit "empty")
  /\ result (load_spk_info ext_plain (PyInt 3)) = Return (str_lit "load failed")
  /\ result (load_spk_info ext_plain (PyObj 3))
     = Return (str_lit "- name: name" ++ nl ++ str_lit "- gender: gender"
               ++ nl ++ str_lit "- describe: describe").
Proof. repeat split; reflexivity. Qed.

Example tts_generate_example :
  result (tts_generate ext_plain tts_padded) = Return (Some (PyInt 24000, PyObj 15))
  /\ tts_generate ext_plain (tts_generate_defaults (str_lit "   ")) = (Return None, []).
Proof. split; reflexivity. Qed.

Example split_long_text_example :
  result (split_long_text (demo_ext ∅ [] [str_lit "ab"; str_lit "c"] 1000) (str_lit "ab c"))
  = Return [[PyInt 0; PyStr (str_lit "ab"); PyInt 2];
            [PyInt 1; PyStr (str_lit "c"); PyInt 1]].
Proof. reflexivity. Qed.

(** * Further properties *)

(** ** More on [segments_length_limit] *)

Section KeptSegments.

Variable total_max : Z.

Lemma segments_length_limit_loop_kept (segments : list segment) :
  forall ret_segments total_len,
    segments_length_limit_loop segments total_max ret_segments total_len
    = ret_segments ++ kept_segments segments total_max total_len.
Proof.
  induction segments as [|seg rest IH]; intros ret total; simpl.
  - by rewrite app_nil_r.
  - destruct (isinstance_SSMLBreak seg).
    + by rewrite IH, <- app_assoc.
    + destruct (total_max <? total + seg_text_len seg).
      * by rewrite app_nil_r.
      * by rewrite IH, <- app_assoc.
Qed.

Lemma segments_length_limit_kept (segments : list segment) :
  segments_length_limit segments total_max = kept_segments segments total_max 0.
Proof. unfold segments_length_limit. by rewrite segments_length_limit_loop_kept. Qed.

Lemma seg_text_len_nonneg (seg : segment) : 0 <= seg_text_len seg.
Proof. destruct seg; simpl; unfold len; lia. Qed.

Lemma kept_segments_idemp (segments : list segment) :
  forall total_len,
    kept_segments (kept_segments segments total_max total_len) total_max total_len
    = kept_segments segments total_max total_len.
Proof.
  induction segments as [|seg rest IH]; intros total; simpl; [done|].
  destruct (isinstance_SSMLBreak seg) eqn:Hbreak; simpl.
  - by rewrite Hbreak, IH.
  - destruct (total_max <? total + seg_text_len seg) eqn:Hover; simpl; [done|].
    by rewrite Hbreak, Hover, IH.
Qed.

Lemma kept_segments_all (segments : list segment) :
  forall total_len,
    total_len + text_len_sum segments <= total_max ->
    kept_segments segments total_max total_len = segments.
Proof.
  induction segments as [|seg rest IH]; intros total Hfit; simpl in *; [done|].
  pose proof (seg_text_len_nonneg seg). pose proof (text_len_sum_nonneg rest).
  destruct (isinstance_SSMLBreak seg) eqn:Hbreak.
  - f_equal. apply IH. destruct seg; [simpl in *; lia|done].
  - destruct (Z.ltb_spec total_max (total + seg_text_len seg)); [lia|].
    f_equal. apply IH. lia.
Qed.

Lemma kept_segments_sum (segments : list segment) :
  forall total_len,
    total_len <= total_max ->
    total_len + text_len_sum (kept_segments segments total_max total_len) <= total_max.
Proof.
  induction segments as [|seg rest IH]; intros total Hle; simpl; [lia|].
  destruct (isinstance_SSMLBreak seg) eqn:Hbreak; simpl.
  - destruct seg; [|done]. simpl. by apply IH.
  - destruct (Z.ltb_spec total_max (total + seg_text_len seg)); simpl; [lia|].
    specialize (IH (total + seg_text_len seg)). lia.
Qed.

Lemma kept_segments_negative (segments : list segment) (total_len : Z) :
  total_max < total_len ->
  kept_segments segments total_max total_len = leading_breaks segments.
Proof.
  intros Hneg. induction segments as [|seg rest IH]; simpl; [done|].
  pose proof (seg_text_len_nonneg seg).
  destruct (isinstance_SSMLBreak seg); [by rewrite IH|].
  destruct (Z.ltb_spec total_max (total_len + seg_text_len seg)); [done|lia].
Qed.

End KeptSegments.

Lemma kept_segments_mono (segments : list segment) :
  forall max1 max2 total_len,
    max1 <= max2 ->
    kept_segments segments max1 total_len `prefix_of` kept_segments segments max2 total_len.
Proof.
  induction segments as [|seg rest IH]; intros max1 max2 total Hle; simpl; [done|].
  destruct (isinstance_SSMLBreak seg).
  - apply prefix_cons. by apply IH.
  - destruct (Z.ltb_spec max1 (total + seg_text_len seg)).
    + apply prefix_nil.
    + destruct (Z.ltb_spec max2 (total + seg_text_len seg)); [lia|].
      apply prefix_cons. by apply IH.
Qed.

(** X1: limiting an already limited list with the same limit changes
    nothing. *)
Theorem segments_length_limit_idemp (segments : list segment) (total_max : Z) :
  segments_length_limit (segments_length_limit segments total_max) total_max
  = segments_length_limit segments total_max.
Proof. rewrite !segments_length_limit_kept. apply kept_segments_idemp. Qed.

(** X2: a larger limit keeps at least what a smaller one keeps: the
    result for the smaller limit is a prefix of the result for the
    larger. *)
Theorem segments_length_limit_mono (segments : list segment) (max1 max2 : Z) :
  max1 <= max2 ->
  segments_length_limit segments max1 `prefix_of` segments_length_limit segments max2.
Proof. intros Hle. rewrite !segments_length_limit_kept. by apply kept_segments_mono. Qed.

Lemma segments_length_limit_mono_witness :
  segments_length_limit
    [SSMLSegment (str_lit "abc") ∅; SSMLBreak ∅; SSMLSegment (str_lit "de") ∅] 3
  `prefix_of`
  segments_length_limit
    [SSMLSegment (str_lit "abc") ∅; SSMLBreak ∅; SSMLSegment (str_lit "de") ∅] 5.
Proof. apply segments_length_limit_mono. lia. Defined.

(** X3: for a non-negative limit the whole list comes back exactly when
    the total length of its texts is within the limit. *)
Theorem segments_length_limit_all_iff (segments : list segment) (total_max : Z) :
  0 <= total_max ->
  segments_length_limit segments total_max = segments
  <-> text_len_sum segments <= total_max.
Proof.
  intros Hmax. rewrite segments_length_limit_kept. split.
  - intros Heq. pose proof (kept_segments_sum total_max segments 0 Hmax) as Hsum.
    rewrite Heq in Hsum. lia.
  - intros Hfit. apply kept_segments_all. lia.
Qed.

Lemma segments_length_limit_all_iff_witness :
  segments_length_limit [SSMLSegment (str_lit "abc") ∅; SSMLBreak ∅] 3
  = [SSMLSegment (str_lit "abc") ∅; SSMLBreak ∅].
Proof.
  apply (segments_length_limit_all_iff _ 3); [lia|]. vm_compute. discriminate.
Defined.

(** X4: with a negative limit no text run is ever kept: the result is
    the pause markers in front of the first text run, even when that run
    is empty. *)
Theorem segments_length_limit_below_zero (segments : list segment) (total_max : Z) :
  total_max < 0 ->
  segments_length_limit segments total_max = leading_breaks segments.
Proof. intros Hneg. rewrite segments_length_limit_kept. by apply kept_segments_negative. Qed.

Lemma segments_length_limit_below_zero_witness :
  segments_length_limit [SSMLBreak ∅; SSMLSegment [] ∅; SSMLBreak ∅] (-1) = [SSMLBreak ∅].
Proof.
  apply (segments_length_limit_below_zero [SSMLBreak ∅; SSMLSegment [] ∅; SSMLBreak ∅] (-1)).
  lia.
Defined.

Lemma kept_segments_app_cut (total_max : Z) (l1 l2 : list segment) :
  forall total_len,
    kept_segments l1 total_max total_len <> l1 ->
    kept_segments (l1 ++ l2) total_max total_len = kept_segments l1 total_max total_len.
Proof.
  induction l1 as [|seg rest IH]; intros total Hcut; simpl in *; [done|].
  destruct (isinstance_SSMLBreak seg).
  - f_equal. apply IH. congruence.
  - destruct (total_max <? total + seg_text_len seg); [done|].
    f_equal. apply IH. congruence.
Qed.

(** X5: once the limit has cut a list, nothing that is appended to the
    list changes the result. *)
Theorem segments_length_limit_app_cut (l1 l2 : list segment) (total_max : Z) :
  segments_length_limit l1 total_max <> l1 ->
  segments_length_limit (l1 ++ l2) total_max = segments_length_limit l1 total_max.
Proof.
  rewrite !segments_length_limit_kept. apply kept_segments_app_cut.
Qed.

Lemma segments_length_limit_app_cut_witness :
  segments_length_limit
    ([SSMLSegment (str_lit "abc") ∅; SSMLSegment (str_lit "de") ∅] ++ [SSMLBreak ∅]) 4
  = segments_length_limit [SSMLSegment (str_lit "abc") ∅; SSMLSegment (str_lit "de") ∅] 4.
Proof.
  apply segments_length_limit_app_cut. vm_compute. discriminate.
Defined.

(** ** More on [synthesize_ssml] *)

Section SsmlRuns.

Context (ext : externals).

(** What stands behind a call of [synthesize_segments]. *)
Lemma synthesize_ssml_run_inv (a : ssml_args) (synthesize : pyval)
    (segments : list segment) :
  EvSynthesizeSegmentsRun synthesize segments ∈ calls (synthesize_ssml ext a) ->
  exists parser parsed,
    create_ssml_parser ext = Return parser
    /\ parser_parse ext parser (strip (sa_ssml a)) = Return parsed
    /\ segments = segments_length_limit parsed (ssml_max ext)
    /\ segments <> [].
Proof.
  rewrite synthesize_ssml_unfold.
  unfold_M. simpl. intros H.
  split_match_hyp H; log_inv H.
  all: injection H as -> ->; do 2 eexists; repeat split; try done.
  all: intros Hnil; by rewrite Hnil in *.
Qed.

Lemma synthesize_ssml_new_inv (a : ssml_args) (batch_size : Z) (eos spliter_thr : pyval) :
  EvSynthesizeSegments batch_size eos spliter_thr ∈ calls (synthesize_ssml ext a) ->
  batch_size = batch_size_or ext (sa_batch_size a) 8
  /\ eos = sa_eos a /\ spliter_thr = sa_spliter_thr a.
Proof.
  rewrite synthesize_ssml_unfold.
  unfold_M. simpl. intros H.
  split_match_hyp H; log_inv H; by injection H as -> -> ->.
Qed.

End SsmlRuns.

(** X6: the segment list [synthesize_ssml] hands to synthesis is the
    parser's list after [segments_length_limit] with [ssml_max]: it is
    not empty, and for a non-negative [ssml_max] its texts add up to at
    most [ssml_max] characters. *)
Theorem synthesize_ssml_segments_limited (ext : externals) (a : ssml_args)
    (synthesize : pyval) (segments : list segment) :
  EvSynthesizeSegmentsRun synthesize segments ∈ calls (synthesize_ssml ext a) ->
  exists parser parsed,
    create_ssml_parser ext = Return parser
    /\ parser_parse ext parser (strip (sa_ssml a)) = Return parsed
    /\ segments = segments_length_limit parsed (ssml_max ext)
    /\ segments <> []
    /\ segments `prefix_of` parsed
    /\ (0 <= ssml_max ext -> text_len_sum segments <= ssml_max ext).
Proof.
  intros (parser & parsed & Hparser & Hparse & -> & Hne)%synthesize_ssml_run_inv.
  exists parser, parsed. repeat split; try done.
  - destruct (segments_length_limit_loop_prefix (ssml_max ext) parsed [] 0)
      as (k & _ & Heq & _).
    unfold segments_length_limit. rewrite Heq. apply prefix_take.
  - intros Hmax. rewrite segments_length_limit_kept.
    pose proof (kept_segments_sum (ssml_max ext) parsed 0 Hmax). lia.
Qed.

Lemma synthesize_ssml_segments_limited_witness :
  exists synthesize segments,
    EvSynthesizeSegmentsRun synthesize segments
    ∈ calls (synthesize_ssml ext_one_segment ssml_hello)
    /\ segments <> [].
Proof.
  assert (Hin : exists synthesize segments,
             EvSynthesizeSegmentsRun synthesize segments
             ∈ calls (synthesize_ssml ext_one_segment ssml_hello)).
  { do 2 eexists. vm_compute. do 3 apply list_elem_of_further. apply list_elem_of_here. }
  destruct Hin as (synthesize & segments & Hin). exists synthesize, segments.
  split; [exact Hin|].
  destruct (synthesize_ssml_segments_limited ext_one_segment ssml_hello synthesize segments Hin)
    as (_ & _ & _ & _ & _ & Hne & _).
  exact Hne.
Defined.

(** X7: a batch size that [int] converts is passed on as the converted
    integer, a float truncated toward zero; [eos] and [spliter_thr] are
    passed on as given. *)
Theorem batch_size_converted (ext : externals) :
  (forall a z batch_size eos spliter_thr,
     py_int ext (sa_batch_size a) = Return z ->
     EvSynthesizeSegments batch_size eos spliter_thr ∈ calls (synthesize_ssml ext a) ->
     batch_size = z /\ eos = sa_eos a /\ spliter_thr = sa_spliter_thr a)
  /\ (forall a m e batch_size eos spliter_thr,
        sa_batch_size a = PyFloat (F64Fin m e) ->
        EvSynthesizeSegments batch_size eos spliter_thr ∈ calls (synthesize_ssml ext a) ->
        batch_size = f64_trunc m e)
  /\ (forall a z c,
        py_int ext (ta_batch_size a) = Return z ->
        EvSynthesizeAudio c ∈ calls (tts_generate ext a) ->
        sc_batch_size c = z)
  /\ (forall a m e c,
        ta_batch_size a = PyFloat (F64Fin m e) ->
        EvSynthesizeAudio c ∈ calls (tts_generate ext a) ->
        sc_batch_size c = f64_trunc m e).
Proof.
  split; [|split; [|split]].
  - intros a z b eos thr Hint (-> & -> & ->)%synthesize_ssml_new_inv.
    unfold batch_size_or. by rewrite Hint.
  - intros a m e b eos thr Hfloat (-> & _)%synthesize_ssml_new_inv.
    unfold batch_size_or. by rewrite Hfloat.
  - intros a z c Hint Hin.
    destruct (tts_generate_synthesize_audio_inv ext a c Hin)
      as (_ & _ & _ & _ & _ & _ & _ & -> & _).
    unfold batch_size_or. by rewrite Hint.
  - intros a m e c Hfloat Hin.
    destruct (tts_generate_synthesize_audio_inv ext a c Hin)
      as (_ & _ & _ & _ & _ & _ & _ & -> & _).
    unfold batch_size_or. by rewrite Hfloat.
Qed.

(** X8: an exception of the SSML parser, from its construction or from
    [parse], comes out of [synthesize_ssml] unchanged, and synthesis is
    never invoked. *)
Theorem synthesize_ssml_parser_raises (ext : externals) (a : ssml_args) (e : exn) :
  strip (sa_ssml a) <> [] ->
  create_ssml_parser ext = Raise e
  \/ (exists parser, create_ssml_parser ext = Return parser
                     /\ parser_parse ext parser (strip (sa_ssml a)) = Raise e) ->
  result (synthesize_ssml ext a) = Raise e
  /\ Forall (fun ev => is_synthesis ev = false) (calls (synthesize_ssml ext a)).
Proof.
  intros Hblank Hraise. rewrite synthesize_ssml_unfold. simpl.
  rewrite bool_decide_eq_false_2 by done. unfold_M.
  destruct Hraise as [->|(parser & -> & ->)]; simpl; split; by repeat constructor.
Qed.

Lemma synthesize_ssml_parser_raises_witness :
  result (synthesize_ssml ext_parser_raises ssml_hello) = Raise (OtherException 7).
Proof.
  refine (proj1 (synthesize_ssml_parser_raises ext_parser_raises ssml_hello
                   (OtherException 7) _ _)).
  - vm_compute. discriminate.
  - right. exists (PyObj 10). split; reflexivity.
Defined.

(** X9: [synthesize_ssml] returns [None] exactly when the SSML strips to
    the empty string or the parser's list is empty after the length
    limit. *)
Theorem synthesize_ssml_None_iff (ext : externals) (a : ssml_args) :
  result (synthesize_ssml ext a) = Return None
  <-> strip (sa_ssml a) = []
      \/ exists parser parsed,
           create_ssml_parser ext = Return parser
           /\ parser_parse ext parser (strip (sa_ssml a)) = Return parsed
           /\ segments_length_limit parsed (ssml_max ext) = [].
Proof.
  rewrite synthesize_ssml_unfold. simpl.
  destruct (decide (strip (sa_ssml a) = [])) as [Hblank|Hblank].
  { rewrite bool_decide_eq_true_2 by done. split; [by left|done]. }
  rewrite bool_decide_eq_false_2 by done. unfold_M.
  destruct (create_ssml_parser ext) as [parser|e] eqn:Hparser; simpl; cycle 1.
  { split; [done|]. intros [?|(? & ? & ? & _)]; done. }
  destruct (parser_parse ext parser (strip (sa_ssml a))) as [parsed|e] eqn:Hparse;
    simpl; cycle 1.
  { split; [done|]. intros [?|(? & ? & [= <-] & ? & _)]; [done|congruence]. }
  destruct (segments_length_limit parsed (ssml_max ext)) as [|seg kept] eqn:Hlimit; simpl.
  { split; [|done]. intros _. right. by exists parser, parsed. }
  split.
  - intros H. simpl in H. split_match_hyp H; discriminate H.
  - intros [?|(? & parsed' & [= <-] & Hparse' & Hnil)]; [done|].
    assert (parsed' = parsed) as -> by congruence. congruence.
Qed.

(** ** More on [tts_generate] *)

Lemma slice_to_nil_iff {A} (l : list A) (stop : Z) :
  slice_to l stop = [] <-> l = [] \/ stop = 0 \/ stop <= - len l.
Proof.
  unfold slice_to, len. destruct l as [|x l]; simpl length.
  { rewrite take_nil. split; [by left|done]. }
  split.
  - intros Hnil. right.
    destruct (Z.ltb_spec stop 0).
    + destruct (Z.to_nat _) eqn:Hk; [lia|done].
    + destruct (Z.to_nat _) eqn:Hk; [lia|done].
  - intros [?|[->|Hle]]; [done|done|].
    destruct (Z.ltb_spec stop 0); [|lia].
    by replace (Z.to_nat _) with 0%nat by lia.
Qed.

Section TtsRuns.

Context (ext : externals).

(** What stands behind the other arguments of [synthesize_audio]. *)
Lemma tts_generate_synthesize_audio_args (a : tts_args) (c : synth_call) :
  EvSynthesizeAudio c ∈ calls (tts_generate ext a) ->
  exists params,
    calc_spk_style ext (ta_spk a) (tts_style (ta_style a)) = Return params
    /\ tts_top_k ext (ta_top_k a) = Return (sc_top_K c)
    /\ (if truthy (ta_spk_file a)
        then Speaker_from_file ext (ta_spk_file a) = Return (sc_spk c)
        else sc_spk c = dict_get params "spk" (ta_spk a)).
Proof.
  rewrite tts_generate_unfold.
  unfold_M. simpl. intros H.
  split_match_hyp H; log_inv H.
  all: injection H as ->; simpl; eexists; repeat split; try done.
Qed.

Lemma tts_generate_calc_spk_style_inv (a : tts_args) (spk style : pyval) :
  EvCalcSpkStyle spk style ∈ calls (tts_generate ext a) ->
  spk = ta_spk a /\ style = tts_style (ta_style a).
Proof.
  rewrite tts_generate_unfold.
  unfold_M. simpl. intros H.
  split_match_hyp H; log_inv H; by injection H as -> ->.
Qed.

Lemma tts_generate_no_normalize (a : tts_args) (t : str) :
  truthy (ta_disable_normalize a) = true ->
  EvTextNormalize t ∈ calls (tts_generate ext a) -> False.
Proof.
  intros Hoff. rewrite tts_generate_unfold.
  unfold_M. simpl. rewrite Hoff. simpl. intros H.
  split_match_hyp H; log_inv H.
Qed.

End TtsRuns.

(** X10: [tts_generate] returns [None] exactly when the stripped text cut
    to [tts_max] is empty: the text is all whitespace, or [tts_max] is 0,
    or [tts_max] is negative and reaches back over the whole text; no
    collaborator is called then. *)
Theorem tts_generate_None_iff (ext : externals) (a : tts_args) :
  (result (tts_generate ext a) = Return None
   <-> strip (ta_text a) = [] \/ tts_max ext = 0
       \/ tts_max ext <= - len (strip (ta_text a)))
  /\ (result (tts_generate ext a) = Return None -> calls (tts_generate ext a) = []).
Proof.
  pose proof (slice_to_nil_iff (strip (ta_text a)) (tts_max ext)) as Hiff.
  rewrite tts_generate_unfold. simpl.
  destruct (decide (slice_to (strip (ta_text a)) (tts_max ext) = [])) as [Hnil|Hne].
  { rewrite bool_decide_eq_true_2 by done. split; [|done]. split; [|done].
    intros _. by apply Hiff. }
  rewrite bool_decide_eq_false_2 by done.
  assert (Hsome : result
    (top_k ← lift (tts_top_k ext (ta_top_k a));
     params ← call (EvCalcSpkStyle (ta_spk a) (tts_style (ta_style a)))
                   (calc_spk_style ext (ta_spk a) (tts_style (ta_style a)));
     infer_seed ← lift (clip_seed ext (py_or (ta_infer_seed a)
                                         (dict_get params "seed" (ta_infer_seed a))));
     text ← (if negb (truthy (ta_disable_normalize a))
             then call (EvTextNormalize (slice_to (strip (ta_text a)) (tts_max ext)))
                       (text_normalize ext (slice_to (strip (ta_text a)) (tts_max ext)))
             else mret (slice_to (strip (ta_text a)) (tts_max ext)));
     spk ← (if truthy (ta_spk_file a)
            then call (EvSpeakerFromFile (ta_spk_file a))
                      (Speaker_from_file ext (ta_spk_file a))
            else mret (dict_get params "spk" (ta_spk a)));
     let c := {| sc_text := text;
                 sc_temperature := py_or (ta_temperature a)
                   (dict_get params "temperature" (ta_temperature a));
                 sc_top_P := ta_top_p a; sc_top_K := top_k; sc_spk := spk;
                 sc_infer_seed := infer_seed; sc_use_decoder := ta_use_decoder a;
                 sc_prompt1 := py_or (ta_prompt1 a) (dict_get params "prompt1" (PyStr []));
                 sc_prompt2 := py_or (ta_prompt2 a) (dict_get params "prompt2" (PyStr []));
                 sc_prefix := py_or (ta_prefix a) (dict_get params "prefix" (ta_prefix a));
                 sc_batch_size := batch_size_or ext (ta_batch_size a) 4;
                 sc_end_of_sentence := ta_eos a;
                 sc_spliter_threshold := ta_spliter_thr a |} in
     '(sample_rate, audio_data) ← call (EvSynthesizeAudio c) (synthesize_audio ext c);
     '(audio_data, sample_rate) ← apply_audio_enhance ext audio_data sample_rate
                                    (ta_enable_denoise a) (ta_enable_enhance a);
     audio_data ← call (EvAudioToInt16 audio_data) (audio_to_int16 ext audio_data);
     mret (Some (sample_rate, audio_data))) = Return None -> False).
  { unfold_M. simpl. intros H. split_match_hyp H; discriminate H. }
  split; [split|]; [intros H; destruct (Hsome H)| |intros H; destruct (Hsome H)].
  intros Hcases. by apply Hiff in Hcases.
Qed.

(** X11: the style ["*auto"] reaches [calc_spk_style] as [None]; every
    other style, and the [spk] argument, reach it as given. *)
Theorem tts_generate_style_auto (ext : externals) (a : tts_args) (spk style : pyval) :
  EvCalcSpkStyle spk style ∈ calls (tts_generate ext a) ->
  spk = ta_spk a
  /\ (ta_style a = PyStr (str_lit "*auto") -> style = PyNone)
  /\ (ta_style a <> PyStr (str_lit "*auto") -> style = ta_style a).
Proof.
  intros (-> & ->)%tts_generate_calc_spk_style_inv.
  split; [done|]. unfold tts_style, py_eq_str. split.
  - by intros ->.
  - intros Hne. destruct (ta_style a) as [| | | |s|]; try done.
    rewrite bool_decide_eq_false_2; [done|]. congruence.
Qed.

Lemma tts_generate_style_auto_witness :
  EvCalcSpkStyle (PyInt 3) PyNone ∈ calls (tts_generate ext_plain tts_custom).
Proof.
  assert (Hin : exists spk style,
             EvCalcSpkStyle spk style ∈ calls (tts_generate ext_plain tts_custom)).
  { do 2 eexists. vm_compute. apply list_elem_of_here. }
  destruct Hin as (spk & style & Hin).
  destruct (tts_generate_style_auto ext_plain tts_custom spk style Hin)
    as (Hspk & Hauto & _).
  rewrite Hspk, (Hauto eq_refl) in Hin. exact Hin.
Defined.

(** X12: the speaker handed to synthesis is the one loaded from
    [spk_file] when a file is given; without a file it is the style's
    ["spk"] when the style has one, and the [spk] argument otherwise. *)
Theorem tts_generate_speaker_precedence (ext : externals) (a : tts_args)
    (c : synth_call) :
  EvSynthesizeAudio c ∈ calls (tts_generate ext a) ->
  exists params,
    calc_spk_style ext (ta_spk a) (tts_style (ta_style a)) = Return params
    /\ (truthy (ta_spk_file a) = true ->
        Speaker_from_file ext (ta_spk_file a) = Return (sc_spk c))
    /\ (truthy (ta_spk_file a) = false ->
        sc_spk c = default (ta_spk a) (params !! "spk")).
Proof.
  intros (params & Hstyle & _ & Hspk)%tts_generate_synthesize_audio_args.
  exists params. split; [done|].
  destruct (truthy (ta_spk_file a)); split; done.
Qed.

Lemma tts_generate_speaker_precedence_witness :
  (exists c, EvSynthesizeAudio c ∈ calls (tts_generate ext_style_speaker tts_big_seed)
             /\ sc_spk c = PyObj 77)
  /\ (exists c, EvSynthesizeAudio c ∈ calls (tts_generate ext_style_speaker tts_custom)
                /\ sc_spk c = PyObj 6).
Proof.
  split.
  - assert (Hin : exists c,
               EvSynthesizeAudio c ∈ calls (tts_generate ext_style_speaker tts_big_seed)).
    { eexists. vm_compute. do 2 apply list_elem_of_further. apply list_elem_of_here. }
    destruct Hin as [c Hin]. exists c. split; [exact Hin|].
    destruct (tts_generate_speaker_precedence _ _ _ Hin) as (params & Hstyle & _ & Hspk).
    injection Hstyle as <-. rewrite (Hspk eq_refl). reflexivity.
  - assert (Hin : exists c,
               EvSynthesizeAudio c ∈ calls (tts_generate ext_style_speaker tts_custom)).
    { eexists. vm_compute. do 2 apply list_elem_of_further. apply list_elem_of_here. }
    destruct Hin as [c Hin]. exists c. split; [exact Hin|].
    destruct (tts_generate_speaker_precedence _ _ _ Hin) as (params & _ & Hfile & _).
    specialize (Hfile eq_refl). by injection Hfile as <-.
Defined.

(** X13: a float [top_k] reaches synthesis truncated toward zero, any
    other [top_k] as given; a NaN or infinite [top_k] makes
    [tts_generate] raise before any collaborator is called. *)
Theorem tts_generate_top_k (ext : externals) (a : tts_args) :
  (forall c m e,
     ta_top_k a = PyFloat (F64Fin m e) ->
     EvSynthesizeAudio c ∈ calls (tts_generate ext a) ->
     sc_top_K c = PyInt (f64_trunc m e))
  /\ (forall c,
        (forall f, ta_top_k a <> PyFloat f) ->
        EvSynthesizeAudio c ∈ calls (tts_generate ext a) ->
        sc_top_K c = ta_top_k a)
  /\ (slice_to (strip (ta_text a)) (tts_max ext) <> [] ->
      ta_top_k a = PyFloat F64NaN ->
      tts_generate ext a = (Raise ValueError, []))
  /\ (slice_to (strip (ta_text a)) (tts_max ext) <> [] ->
      forall neg, ta_top_k a = PyFloat (F64Inf neg) ->
      tts_generate ext a = (Raise OverflowError, [])).
Proof.
  split; [|split; [|split]].
  - intros c m e Hk (_ & _ & Htop & _)%tts_generate_synthesize_audio_args.
    rewrite Hk in Htop. simpl in Htop. congruence.
  - intros c Hk (_ & _ & Htop & _)%tts_generate_synthesize_audio_args.
    destruct (ta_top_k a) as [| | |f| |] eqn:Hv; simpl in Htop; try congruence.
  - intros Hne Hk. rewrite tts_generate_unfold. simpl.
    rewrite bool_decide_eq_false_2 by done. by rewrite Hk.
  - intros Hne neg Hk. rewrite tts_generate_unfold. simpl.
    rewrite bool_decide_eq_false_2 by done. by rewrite Hk.
Qed.

(** X14: a seed that [np.clip] or [int] rejects (a NaN, [None], a
    string) makes [tts_generate] raise right after [calc_spk_style]:
    neither the normalizer nor synthesis is called. *)
Theorem tts_generate_bad_seed (ext : externals) (a : tts_args)
    (top_k : pyval) (params : gmap string pyval) (e : exn) :
  slice_to (strip (ta_text a)) (tts_max ext) <> [] ->
  tts_top_k ext (ta_top_k a) = Return top_k ->
  calc_spk_style ext (ta_spk a) (tts_style (ta_style a)) = Return params ->
  clip_seed ext (py_or (ta_infer_seed a) (dict_get params "seed" (ta_infer_seed a)))
  = Raise e ->
  result (tts_generate ext a) = Raise e
  /\ calls (tts_generate ext a) = [EvCalcSpkStyle (ta_spk a) (tts_style (ta_style a))].
Proof.
  intros Hne Htop Hstyle Hseed. rewrite tts_generate_unfold. simpl.
  rewrite bool_decide_eq_false_2 by done. unfold_M.
  by rewrite Htop, Hstyle, Hseed.
Qed.

Lemma tts_generate_bad_seed_witness :
  result (tts_generate ext_plain tts_nan_seed) = Raise ValueError.
Proof.
  refine (proj1 (tts_generate_bad_seed ext_plain tts_nan_seed (PyInt 20) ∅ ValueError
                   _ eq_refl eq_refl eq_refl)).
  vm_compute. discriminate.
Defined.

(** X15: with a truthy [disable_normalize] the normalizer is never
    called. *)
Theorem tts_generate_disable_normalize (ext : externals) (a : tts_args) :
  truthy (ta_disable_normalize a) = true ->
  Forall (fun ev => match ev with EvTextNormalize _ => False | _ => True end)
         (calls (tts_generate ext a)).
Proof.
  intros Hoff. apply Forall_forall. intros ev Hin.
  destruct ev; try done.
  by destruct (tts_generate_no_normalize ext a text Hoff Hin).
Qed.

Lemma tts_generate_disable_normalize_witness :
  Forall (fun ev => match ev with EvTextNormalize _ => False | _ => True end)
         (calls (tts_generate ext_plain tts_custom)).
Proof. apply tts_generate_disable_normalize. reflexivity. Defined.

(** ** More on [load_spk_info] *)

Lemma lstrip_app_space (ws s : str) :
  Forall (fun c => is_space c = true) ws -> lstrip (ws ++ s) = lstrip s.
Proof.
  induction 1 as [|c ws Hc _ IH]; simpl; [done|]. by rewrite Hc.
Qed.

Lemma rstrip_app_space (s ws : str) :
  Forall (fun c => is_space c = true) ws -> rstrip (s ++ ws) = rstrip s.
Proof.
  intros Hws. unfold rstrip. rewrite reverse_app.
  rewrite lstrip_app_space; [done|]. by apply Forall_reverse.
Qed.

(** X16: when the speaker loads and its three fields format, the text
    [load_spk_info] returns is the three lines "- name: ..",
    "- gender: ..", "- describe: .." joined by newlines, without the
    whitespace that ends the description. *)
Theorem load_spk_info_text (ext : externals) (file spk infos : pyval)
    (name gender describe : str) :
  file <> PyNone ->
  Speaker_from_file ext file = Return spk ->
  Speaker_to_json ext spk = Return infos ->
  fmt_field ext infos "name" = Return name ->
  fmt_field ext infos "gender" = Return gender ->
  fmt_field ext infos "describe" = Return describe ->
  result (load_spk_info ext file)
  = Return (rstrip (str_lit "- name: " ++ name ++ nl ++ str_lit "- gender: " ++ gender
                    ++ nl ++ str_lit "- describe: " ++ describe)).
Proof.
  intros Hfile Hspk Hinfos Hname Hgender Hdescribe.
  rewrite load_spk_info_result by done.
  rewrite Hspk, Hinfos, Hname, Hgender, Hdescribe. f_equal.
  unfold spk_info_text, strip.
  change (lstrip (nl ++ ?s)) with (lstrip s).
  change (lstrip (str_lit "- name: " ++ ?s)) with (str_lit "- name: " ++ s).
  rewrite <- (rstrip_app_space
                (str_lit "- name: " ++ name ++ nl ++ str_lit "- gender: " ++ gender
                 ++ nl ++ str_lit "- describe: " ++ describe)
                (nl ++ str_lit "    ")) by (by repeat constructor).
  f_equal. by rewrite <- !app_assoc.
Qed.

Lemma load_spk_info_text_witness :
  result (load_spk_info ext_plain (PyObj 3))
  = Return (rstrip (str_lit "- name: " ++ str_lit "name" ++ nl
                    ++ str_lit "- gender: " ++ str_lit "gender" ++ nl
                    ++ str_lit "- describe: " ++ str_lit "describe")).
Proof.
  apply (load_spk_info_text ext_plain (PyObj 3) (PyObj 4) (PyObj 4));
    [discriminate|reflexivity..].
Defined.

(** ** More on [split_long_text] *)

Section NormalizeAll.

Context (ext : externals).

(** The comprehension [[text_normalize(s) for s in sentences]] returns
    when every call does. *)
Lemma normalize_all_ok (raw sentences : list str) :
  Forall2 (fun r s => text_normalize ext r = Return s) raw sentences ->
  mapM (fun s => call (EvTextNormalize s) (text_normalize ext s)) raw
  = (Return sentences, EvTextNormalize <$> raw).
Proof.
  induction 1 as [|r s raw sentences Hr _ IH]; simpl; [done|].
  rewrite IH. unfold_M. rewrite Hr. simpl. by rewrite app_nil_r.
Qed.

(** It stops at the first call that raises. *)
Lemma normalize_all_fail (pre post : list str) (bad : str) (e : exn) :
  Forall (fun r => exists s, text_normalize ext r = Return s) pre ->
  text_normalize ext bad = Raise e ->
  mapM (fun s => call (EvTextNormalize s) (text_normalize ext s)) (pre ++ bad :: post)
  = (Raise e, EvTextNormalize <$> (pre ++ [bad])).
Proof.
  intros Hpre Hbad. induction Hpre as [|r pre [s Hr] _ IH]; simpl.
  - unfold_M. by rewrite Hbad.
  - rewrite IH. unfold_M. by rewrite Hr.
Qed.

End NormalizeAll.

(** X17: when [split_long_text] returns, the normalizer has been called
    once on each sentence of the splitter, in order, and there are as
    many rows as sentences. *)
Theorem split_long_text_calls (ext : externals) (long_text_input : str)
    (rows : list (list pyval)) :
  result (split_long_text ext long_text_input) = Return rows ->
  exists spliter raw,
    SentenceSplitter ext (spliter_threshold ext) = Return spliter
    /\ spliter_parse ext spliter long_text_input = Return raw
    /\ length rows = length raw
    /\ calls (split_long_text ext long_text_input)
       = [EvSentenceSplitter (spliter_threshold ext);
          EvSplitterParse spliter long_text_input]
         ++ (EvTextNormalize <$> raw).
Proof.
  unfold split_long_text.
  pose proof (mapM_result (fun s => call (EvTextNormalize s) (text_normalize ext s))) as Hmap.
  pose proof (normalize_all_ok ext) as Hok.
  unfold_M. simpl.
  destruct (SentenceSplitter ext (spliter_threshold ext)) as [spliter|e]; simpl; [|done].
  destruct (spliter_parse ext spliter long_text_input) as [raw|e] eqn:Hparse;
    simpl; [|done].
  specialize (Hmap raw). specialize (Hok raw). simpl in Hmap.
  destruct (mapM _ raw) as [[sentences|e] log] eqn:Hrun; simpl in *; [|done].
  intros [= <-]. exists spliter, raw.
  assert (Hall : Forall2 (fun r s => text_normalize ext r = Return s) raw sentences)
    by by apply Hmap.
  specialize (Hok sentences Hall). injection Hok as ->.
  split; [done|]. split; [done|]. split.
  - rewrite split_long_text_loop_spec. simpl. rewrite length_imap.
    symmetry. by eapply Forall2_length.
  - by rewrite app_nil_r.
Qed.

Lemma split_long_text_calls_witness :
  exists rows,
    result (split_long_text (demo_ext ∅ [] [str_lit "ab"; str_lit "c"] 1000) (str_lit "ab c"))
    = Return rows
    /\ length rows = 2%nat.
Proof.
  eexists. split; [reflexivity|].
  destruct (split_long_text_calls (demo_ext ∅ [] [str_lit "ab"; str_lit "c"] 1000)
              (str_lit "ab c") _ eq_refl) as (spliter & raw & _ & Hraw & Hlen & _).
  injection Hraw as <-. exact Hlen.
Defined.

(** X18: when the normalizer raises on a sentence, [split_long_text]
    raises the same exception at once: the sentences before it have
    been normalized, the ones after it never are. *)
Theorem split_long_text_fail_fast (ext : externals) (long_text_input : str)
    (spliter : pyval) (pre post : list str) (bad : str) (e : exn) :
  SentenceSplitter ext (spliter_threshold ext) = Return spliter ->
  spliter_parse ext spliter long_text_input = Return (pre ++ bad :: post) ->
  Forall (fun r => exists s, text_normalize ext r = Return s) pre ->
  text_normalize ext bad = Raise e ->
  result (split_long_text ext long_text_input) = Raise e
  /\ calls (split_long_text ext long_text_input)
     = [EvSentenceSplitter (spliter_threshold ext);
        EvSplitterParse spliter long_text_input]
       ++ (EvTextNormalize <$> (pre ++ [bad])).
Proof.
  intros Hnew Hparse Hpre Hbad. unfold split_long_text.
  pose proof (normalize_all_fail ext pre post bad e Hpre Hbad) as Hfail.
  unfold_M. rewrite Hnew. simpl. rewrite Hparse. simpl.
  by rewrite Hfail.
Qed.

Lemma split_long_text_fail_fast_witness :
  result (split_long_text ext_normalizer_raises (str_lit "ok bad late")) = Raise ValueError
  /\ calls (split_long_text ext_normalizer_raises (str_lit "ok bad late"))
     = [EvSentenceSplitter 100; EvSplitterParse (PyObj 17) (str_lit "ok bad late");
        EvTextNormalize (str_lit "ok"); EvTextNormalize (str_lit "bad")].
Proof.
  apply (split_long_text_fail_fast ext_normalizer_raises (str_lit "ok bad late")
           (PyObj 17) [str_lit "ok"] [str_lit "late"] (str_lit "bad") ValueError);
    [reflexivity|reflexivity| |reflexivity].
  constructor; [|constructor]. by exists (str_lit "ok").
Defined.

(** ** [get_speaker_names] *)

Lemma str_ltb_irrefl (s : str) : str_ltb s s = false.
Proof.
  induction s as [|a s IH]; simpl; [done|].
  rewrite N.ltb_irrefl, N.eqb_refl, IH. done.
Qed.

Lemma str_ltb_asym (s t : str) : str_ltb s t = true -> str_ltb t s = false.
Proof.
  revert t. induction s as [|a s IH]; intros [|b t]; simpl; try done.
  destruct (N.ltb_spec a b), (N.ltb_spec b a), (N.eqb_spec a b), (N.eqb_spec b a);
    simpl; try lia; try done.
  apply IH.
Qed.

(** "Not greater" on strings is transitive. *)
Lemma str_leb_trans (a b c : str) :
  str_ltb b a = false -> str_ltb c b = false -> str_ltb c a = false.
Proof.
  revert b c. induction a as [|x a IH]; intros [|y b] [|z c]; simpl; try done.
  destruct (N.ltb_spec y x), (N.ltb_spec z y), (N.ltb_spec z x),
    (N.eqb_spec y x), (N.eqb_spec z y), (N.eqb_spec z x); simpl; try lia; try done.
  apply IH.
Qed.

Section SortBy.

Context {A : Type} (key : A -> str).

#[local] Instance key_le_trans : Transitive (key_le key).
Proof. intros x y z Hxy Hyz. unfold key_le in *. by eapply str_leb_trans. Qed.

Lemma insert_by_perm (x : A) (l : list A) : insert_by key x l ≡ₚ x :: l.
Proof.
  induction l as [|y l IH]; simpl; [done|].
  destruct (str_ltb (key y) (key x)); [|done].
  rewrite IH. apply Permutation_swap.
Qed.

Lemma sort_by_perm (l : list A) : sort_by key l ≡ₚ l.
Proof.
  induction l as [|x l IH]; simpl; [done|].
  by rewrite insert_by_perm, IH.
Qed.

Lemma insert_by_sorted (x : A) (l : list A) :
  Sorted (key_le key) l -> Sorted (key_le key) (insert_by key x l).
Proof.
  induction 1 as [|y l Hsorted IH Hhd]; simpl.
  - by repeat constructor.
  - destruct (str_ltb (key y) (key x)) eqn:Hlt.
    + constructor; [done|].
      destruct Hhd as [|z l Hyz]; simpl.
      * constructor. unfold key_le. by apply str_ltb_asym.
      * destruct (str_ltb (key z) (key x)); constructor; [done|].
        unfold key_le. by apply str_ltb_asym.
    + constructor; [by constructor|]. by constructor.
Qed.

Lemma sort_by_sorted (l : list A) : StronglySorted (key_le key) (sort_by key l).
Proof.
  apply Sorted_StronglySorted; [apply _|].
  induction l as [|x l IH]; simpl; [constructor|].
  by apply insert_by_sorted.
Qed.

Lemma StronglySorted_lookup (l : list A) (i j : nat) (x y : A) :
  StronglySorted (key_le key) l ->
  (i < j)%nat -> l !! i = Some x -> l !! j = Some y -> key_le key x y.
Proof.
  intros Hsorted. revert i j.
  induction Hsorted as [|z l _ IH Hall]; intros i j Hij Hi Hj; [done|].
  destruct i as [|i], j as [|j]; simpl in *; try lia.
  - injection Hi as ->. eapply Forall_lookup_1; eauto.
  - apply (IH i j); [lia|done..].
Qed.

(** Elements with the same key keep their order. *)
Lemma sort_by_stable (k : str) (l : list A) :
  filter (fun x => key x = k) (sort_by key l) = filter (fun x => key x = k) l.
Proof.
  induction l as [|x l IH]; simpl; [done|].
  rewrite filter_cons, <- IH. clear IH.
  induction (sort_by key l) as [|y sorted IH]; simpl; [done|].
  destruct (str_ltb (key y) (key x)) eqn:Hlt.
  - rewrite !filter_cons, IH.
    destruct (decide (key y = k)) as [Hy|Hy], (decide (key x = k)) as [Hx|Hx]; try done.
    rewrite Hy, Hx, str_ltb_irrefl in Hlt. done.
  - by rewrite !filter_cons.
Qed.

End SortBy.

Section SpeakerNamesProofs.

Context {speaker : Type} (spk_name spk_gender : speaker -> str).
Context (list_speakers : outcome (list speaker)).

Lemma get_speaker_names_inv (speakers : list speaker) (names : list str) :
  get_speaker_names spk_name spk_gender list_speakers = Return (speakers, names) ->
  list_speakers = Return speakers
  /\ names = sort_by sort_key (get_speaker_show_name spk_name spk_gender <$> speakers).
Proof.
  unfold get_speaker_names, get_speakers.
  destruct list_speakers; [|done]. by intros [= <- <-].
Qed.

(** X19: [get_speaker_names] returns the registry's speakers in the
    registry's order and, beside them, their display names rearranged:
    the same names, as many as there are speakers. *)
Theorem get_speaker_names_perm (speakers : list speaker) (names : list str) :
  get_speaker_names spk_name spk_gender list_speakers = Return (speakers, names) ->
  list_speakers = Return speakers
  /\ names ≡ₚ (get_speaker_show_name spk_name spk_gender <$> speakers)
  /\ length names = length speakers.
Proof.
  intros (Hlist & ->)%get_speaker_names_inv. split; [done|].
  split; [apply sort_by_perm|].
  by rewrite (Permutation_length (sort_by_perm _ _)), length_fmap.
Qed.

(** X20: the display names come back in ascending order of their sort
    key, the key of a name that starts with a star being ["-1"]: of two
    names, the later one never has the smaller key. *)
Theorem get_speaker_names_sorted (speakers : list speaker) (names : list str)
    (i j : nat) (x y : str) :
  get_speaker_names spk_name spk_gender list_speakers = Return (speakers, names) ->
  (i < j)%nat -> names !! i = Some x -> names !! j = Some y ->
  str_ltb (sort_key y) (sort_key x) = false.
Proof.
  intros (_ & ->)%get_speaker_names_inv Hij Hi Hj.
  exact (StronglySorted_lookup sort_key _ i j x y (sort_by_sorted sort_key _) Hij Hi Hj).
Qed.

(** X21: display names with the same sort key keep the order of the
    registry; in particular the names that start with a star, and a name
    that is exactly ["-1"], stay in registry order among themselves. *)
Theorem get_speaker_names_stable (speakers : list speaker) (names : list str) (k : str) :
  get_speaker_names spk_name spk_gender list_speakers = Return (speakers, names) ->
  filter (fun x => sort_key x = k) names
  = filter (fun x => sort_key x = k)
           (get_speaker_show_name spk_name spk_gender <$> speakers).
Proof.
  intros (_ & ->)%get_speaker_names_inv. apply sort_by_stable.
Qed.

(** X22: a display name that starts with a star comes before every
    display name whose first character is above the hyphen, so before
    every name that starts with a digit or a letter. *)
Theorem get_speaker_names_star_first (speakers : list speaker) (names : list str)
    (i j : nat) (x : str) (c : codepoint) (y : str) :
  get_speaker_names spk_name spk_gender list_speakers = Return (speakers, names) ->
  names !! i = Some x -> names !! j = Some (c :: y) ->
  startswith_star x = true -> (45 < c)%N ->
  (i < j)%nat.
Proof.
  intros (_ & ->)%get_speaker_names_inv Hi Hj Hstar Hc.
  assert (Hkx : sort_key x = str_lit "-1") by (unfold sort_key; by rewrite Hstar).
  assert (Hky : sort_key (c :: y) = c :: y).
  { unfold sort_key. simpl. destruct (N.eqb_spec c 42); [lia|done]. }
  assert (Hlt : str_ltb (sort_key x) (sort_key (c :: y)) = true).
  { rewrite Hkx, Hky. change (str_lit "-1") with [45%N; 49%N]. cbn [str_ltb].
    apply orb_true_iff. left. by apply N.ltb_lt. }
  destruct (decide (i < j)%nat) as [|Hge]; [done|]. exfalso.
  destruct (decide (i = j)) as [->|Hne].
  - pose proof (eq_trans (eq_sym Hi) Hj) as Heq. injection Heq as ->.
    rewrite str_ltb_irrefl in Hlt. done.
  - pose proof (StronglySorted_lookup sort_key _ j i (c :: y) x
                  (sort_by_sorted sort_key _) ltac:(lia) Hj Hi) as Hle.
    unfold key_le in Hle. congruence.
Qed.

End SpeakerNamesProofs.

Lemma get_speaker_names_perm_witness :
  get_speaker_names fst snd (Return demo_speakers)
  = Return (demo_speakers,
            [str_lit "*random"; str_lit "*seed"; str_lit "bob"; str_lit "female : zoe"])
  /\ length [str_lit "*random"; str_lit "*seed"; str_lit "bob"; str_lit "female : zoe"]
     = length demo_speakers.
Proof.
  assert (Hrun : get_speaker_names fst snd (Return demo_speakers)
                 = Return (demo_speakers,
                           [str_lit "*random"; str_lit "*seed"; str_lit "bob";
                            str_lit "female : zoe"])) by reflexivity.
  split; [exact Hrun|].
  exact (proj2 (proj2 (get_speaker_names_perm fst snd _ _ _ Hrun))).
Defined.

Lemma get_speaker_names_sorted_witness :
  get_speaker_names fst snd (Return demo_speakers)
  = Return (demo_speakers,
            [str_lit "*random"; str_lit "*seed"; str_lit "bob"; str_lit "female : zoe"])
  /\ str_ltb (sort_key (str_lit "bob")) (sort_key (str_lit "*seed")) = false.
Proof.
  split; [reflexivity|].
  apply (get_speaker_names_sorted fst snd (Return demo_speakers) demo_speakers
           [str_lit "*random"; str_lit "*seed"; str_lit "bob"; str_lit "female : zoe"]
           1 2); [reflexivity|lia|reflexivity|reflexivity].
Defined.

Lemma get_speaker_names_stable_witness :
  filter (fun x => sort_key x = str_lit "-1")
    [str_lit "*random"; str_lit "*seed"; str_lit "bob"; str_lit "female : zoe"]
  = filter (fun x => sort_key x = str_lit "-1")
      (get_speaker_show_name fst snd <$> demo_speakers).
Proof.
  apply (get_speaker_names_stable fst snd (Return demo_speakers) demo_speakers).
  reflexivity.
Defined.

Lemma get_speaker_names_star_first_witness :
  get_speaker_names fst snd (Return demo_speakers)
  = Return (demo_speakers,
            [str_lit "*random"; str_lit "*seed"; str_lit "bob"; str_lit "female : zoe"])
  /\ startswith_star (str_lit "*seed") = true
  /\ (1 < 3)%nat.
Proof.
  split; [reflexivity|]. split; [reflexivity|].
  apply (get_speaker_names_star_first fst snd (Return demo_speakers) demo_speakers
           [str_lit "*random"; str_lit "*seed"; str_lit "bob"; str_lit "female : zoe"]
           1 3 (str_lit "*seed") 102%N (str_lit "emale : zoe"));
    [reflexivity|reflexivity|reflexivity|reflexivity|reflexivity].
Defined.
